(** * f4pga.flows.flow: dependency resolution and incremental execution

    A shallow embedding of [src/f4pga/flows/flow.py]: the Path-Set helpers
    ([p_req_exists], [p_update_dep_statuses], [p_dep_differ]), the
    constructor of [Flow] (output-stage map, seeding of [dep_paths]), the
    planner [_resolve_dependencies] and the execution driver [_build_dep].

    Python objects that the flow mutates in place (its own attributes, the
    sets handed down the recursion, the stages' [value_overrides], the
    cache, the files on disk, the console) are fields of one explicit
    [State] that every operation threads through. *)

From stdpp Require Import gmap strings list fin_maps sorting.
From Stdlib Require Import ZArith.

Set Warnings "-register-all".
Open Scope string_scope.

(** ** Python values that occur as Path-Sets *)

(** The helpers switch on [type(r)]: [str], [list], [dict], anything else.
    [PNone] and [PInt] stand for the values of any other type. A [dict] is
    kept as the list of its items in iteration order. *)
Inductive pyval : Type :=
| PNone
| PStr (s : string)
| PList (l : list pyval)
| PDict (d : list (string * pyval))
| PInt (z : Z).

(** Python truthiness, as used by [if paths:] and [if not paths:]. *)
Definition truthy (v : pyval) : bool :=
  match v with
  | PNone => false
  | PStr s => negb (String.eqb s "")
  | PList l => match l with [] => false | _ => true end
  | PDict d => match d with [] => false | _ => true end
  | PInt z => negb (Z.eqb z 0)
  end.

(** [d.get(k)] on a dict: a missing key yields [None]. *)
Definition py_get (m : gmap string pyval) (k : string) : pyval :=
  default PNone (m !! k).

(** Items of a dict, as an association list: [k in d.keys()] and [d.get(k)]. *)
Definition items_has (d : list (string * pyval)) (k : string) : bool :=
  existsb (fun kv => String.eqb (fst kv) k) d.

Fixpoint items_get (d : list (string * pyval)) (k : string) : pyval :=
  match d with
  | [] => PNone
  | (k', v) :: d' => if String.eqb k' k then v else items_get d' k
  end.

(** ** Exceptions and results *)

Inductive message : Type :=
| MsgDuplicateProvider (output first second : string)
    (* "Dependency `output` is generated by stage `first` and `second`. ..." *)
| MsgRequirementType (r : pyval).
    (* "Requirements can be currently checked only for single paths, ..." *)

(** [NameError "fatal"]: the module calls [fatal(...)] at two places, but its
    import line brings in only [deep], [sfprint], [bin_dir_path],
    [share_dir_path] and [F4PGAException], and the module defines no
    [fatal]; evaluating the name raises [NameError] before the arguments
    are evaluated. *)
Inductive error : Type :=
| Exception (m : message)
| NameError (name : string)
| KeyError (key : string)
| AssertionError
| DependencyNotProducedException (dep_name provider : string)
| ExternalError (what : string).

(** Outcome of a call: a value, a raised exception, or no answer within the
    recursion depth allowed. *)
Inductive result (A : Type) : Type :=
| Ret (a : A)
| Raise (e : error)
| OutOfFuel.
Arguments Ret {A} a.
Arguments Raise {A} e.
Arguments OutOfFuel {A}.

Definition rbind {A B} (r : result A) (k : A -> result B) : result B :=
  match r with
  | Ret a => k a
  | Raise e => Raise e
  | OutOfFuel => OutOfFuel
  end.

(** ** The file system *)

(** The state of the disk: which strings [r] satisfy [Path(r).exists()].
    The call is taken to answer; an [OSError] that it lets through for a name
    the file system refuses is not part of this model. *)
Abbreviation Disk := (string -> bool).

Definition path_exists (dk : Disk) (r : string) : bool := dk r.

(** ** Path-Set helpers that need no cache *)

(** [p_req_exists(r)]. [False in map(p_req_exists, r)] consumes the lazy
    [map] from the left and stops at the first [False]; an exception raised by
    an element reached before that propagates. *)
Fixpoint p_req_exists (dk : Disk) (r : pyval) : result bool :=
  match r with
  | PStr s => if negb (path_exists dk s) then Ret false else Ret true
  | PList l =>
      (fix scan (l : list pyval) : result bool :=
         match l with
         | [] => Ret true
         | x :: l' =>
             match p_req_exists dk x with
             | Ret false => Ret false
             | Ret true => scan l'
             | Raise e => Raise e
             | OutOfFuel => OutOfFuel
             end
         end) l
  | _ => Raise (Exception (MsgRequirementType r))
  end.

(** ** Stages *)

(** Modelled from the spec: the classes [StageIO] and [Stage]
    (f4pga/flows/stage.py) are not part of the source at hand. A dependency
    spec is an artifact name with a requirement kind among required, optional
    and on-demand; the code compares the kind with ["req"] and ["demand"]. *)
Inductive io_spec : Type := req | maybe | demand.

#[global] Instance io_spec_eq_dec : EqDecision io_spec.
Proof. solve_decision. Defined.

Module StageIO.
Record t : Type := mk { name : string; spec : io_spec }.
End StageIO.

(** Modelled from the spec: a stage has a name, ordered takes, ordered
    produces and a module reference; its identity is its name (the stages of
    a flow configuration are keyed by name). The mutable [value_overrides]
    of a stage live in the [State] below, keyed by the stage's name. *)
Module Stage.
Record t : Type := mk {
  name : string;
  takes : list StageIO.t;
  produces : list StageIO.t;
  module : string
}.
End Stage.

(** [a != b] on stages. *)
Definition stage_neq (a b : Stage.t) : bool :=
  negb (String.eqb (Stage.name a) (Stage.name b)).

(** The names a stage declares as outputs. *)
Definition output_names (s : Stage.t) : list string :=
  map StageIO.name (Stage.produces s).

(** ** Output-stage map (Flow.__init__, the two nested loops) *)

(** The inner loop: [for output in stage.produces]. A stage object is always
    truthy, so [not os_map.get(output.name)] holds exactly when the name is
    unclaimed. *)
Fixpoint claim_outputs (stage : Stage.t) (outs : list StageIO.t)
    (os_map : gmap string Stage.t) : result (gmap string Stage.t) :=
  match outs with
  | [] => Ret os_map
  | output :: outs' =>
      match os_map !! StageIO.name output with
      | None =>
          claim_outputs stage outs' (<[StageIO.name output := stage]> os_map)
      | Some owner =>
          if stage_neq owner stage
          then Raise (Exception (MsgDuplicateProvider (StageIO.name output)
                                   (Stage.name owner) (Stage.name stage)))
          else claim_outputs stage outs' os_map
      end
  end.

(** The outer loop: [for stage in cfg.stages.values()]. *)
Fixpoint build_os_map (stages : list Stage.t) (os_map : gmap string Stage.t)
    : result (gmap string Stage.t) :=
  match stages with
  | [] => Ret os_map
  | stage :: stages' =>
      rbind (claim_outputs stage (Stage.produces stage) os_map)
            (build_os_map stages')
  end.

(** ** External collaborators *)

(** What a module receives: [ModRunCtx(share_dir_path, bin_dir_path,
    {"takes": ..., "produces": ..., "values": ...})]; the two directory
    constants are left out. *)
Record ModRunCtx (Values : Type) : Type := mkCtx {
  ctx_takes : gmap string pyval;
  ctx_produces : gmap string pyval;
  ctx_values : Values
}.
Arguments mkCtx {Values}.
Arguments ctx_takes {Values}.
Arguments ctx_produces {Values}.
Arguments ctx_values {Values}.

(** The flow configuration: [cfg.stages.values()] in iteration order and the
    items of [cfg.get_dependency_overrides()]. *)
Record FlowConfig : Type := mkCfg {
  stages : list Stage.t;
  dependency_overrides : list (string * pyval)
}.

(** The code this file calls and does not define: the cache [F4Cache]
    ([process_file], [update], [get_status]; the first two look at the
    disk), the module runner ([module_map] is the dry run, [module_exec] the
    real run, which changes the disk) and the resolution environment
    [cfg.get_r_env(name).values], which reads the stage's value overrides. *)
Record Env : Type := mkEnv {
  Cache : Type;
  Values : Type;
  process_file : string -> Disk -> Cache -> Cache;
  update : string -> string -> Disk -> Cache -> bool * Cache;
  get_status : string -> string -> Cache -> string;
  module_map : string -> ModRunCtx Values -> result (list (string * pyval));
  module_exec : string -> ModRunCtx Values -> Disk -> result Disk;
  r_env_values : string -> gmap string pyval -> Values
}.

(** Messages handed to [sfprint], without their colour codes. *)
Inductive diag : Type :=
| Unreachable (stage take : string)
| CausingRebuild (take stage : string)
| Unresolved (dep : string)
| SkippingRebuild (dep : string)
| TargetAt (target : string) (paths : pyval).

Section WithEnv.

Context (E : Env).

(** ** Path-Set helpers that use the cache *)

(** Modelled from the spec: [deep] (f4pga/flows/common.py) is not part of the
    source at hand; [_cache_deps] registers every path of a Path-Set with the
    cache, recursively over its structure. *)
Fixpoint _cache_deps (dk : Disk) (path : pyval) (fc : Cache E) : Cache E :=
  match path with
  | PStr s => process_file E s dk fc
  | PList l =>
      (fix each (l : list pyval) (fc : Cache E) : Cache E :=
         match l with
         | [] => fc
         | x :: l' => each l' (_cache_deps dk x fc)
         end) l fc
  | PDict d =>
      (fix each (d : list (string * pyval)) (fc : Cache E) : Cache E :=
         match d with
         | [] => fc
         | (_, x) :: d' => each d' (_cache_deps dk x fc)
         end) d fc
  | _ => fc
  end.

(** [p_update_dep_statuses(paths, consumer, f4cache)]: the [return] inside
    each [for] leaves at the first iteration; with no iteration, and for every
    other type, control reaches the call of [fatal]. *)
Fixpoint p_update_dep_statuses (dk : Disk) (paths : pyval) (consumer : string)
    (fc : Cache E) : result (bool * Cache E) :=
  match paths with
  | PStr s => Ret (update E s consumer dk fc)
  | PList (p :: _) => p_update_dep_statuses dk p consumer fc
  | PDict ((_, p) :: _) => p_update_dep_statuses dk p consumer fc
  | _ => Raise (NameError "fatal")
  end.

(** [p_dep_differ(paths, consumer, f4cache)]: the list comprehensions
    evaluate every member. *)
Fixpoint p_dep_differ (dk : Disk) (paths : pyval) (consumer : string)
    (fc : Cache E) : bool :=
  match paths with
  | PStr s =>
      if negb (path_exists dk s) then true
      else negb (String.eqb (get_status E s consumer fc) "same")
  | PList l =>
      (fix any (l : list pyval) : bool :=
         match l with
         | [] => false
         | p :: l' => orb (p_dep_differ dk p consumer fc) (any l')
         end) l
  | PDict d =>
      (fix any (d : list (string * pyval)) : bool :=
         match d with
         | [] => false
         | (_, p) :: d' => orb (p_dep_differ dk p consumer fc) (any d')
         end) d
  | _ => false
  end.

(** ** State *)

(** The attributes of the [Flow] object that change ([os_map], [dep_paths],
    [run_stages], [deps_rebuilds]; [f4cache] is [None] or the cache object,
    whose contents change), the two sets that [_resolve_dependencies] passes
    to its recursive calls by reference, the value overrides written into the
    stages, and the world: disk, console, and the stages whose module was
    executed, in order. *)
Record State : Type := mkState {
  os_map : gmap string Stage.t;
  dep_paths : gmap string pyval;
  run_stages : gset string;
  deps_rebuilds : gmap string nat;
  f4cache : option (Cache E);
  stages_checked : gset string;
  skip_dep_warnings : gset string;
  value_overrides : gmap string (gmap string pyval);
  disk : Disk;
  console : list (nat * diag);
  executed : list string
}.

Definition set_os_map (v : gmap string Stage.t) (st : State) : State :=
  mkState v (dep_paths st) (run_stages st) (deps_rebuilds st) (f4cache st)
    (stages_checked st) (skip_dep_warnings st) (value_overrides st) (disk st)
    (console st) (executed st).

Definition set_dep_paths (v : gmap string pyval) (st : State) : State :=
  mkState (os_map st) v (run_stages st) (deps_rebuilds st) (f4cache st)
    (stages_checked st) (skip_dep_warnings st) (value_overrides st) (disk st)
    (console st) (executed st).

Definition set_run_stages (v : gset string) (st : State) : State :=
  mkState (os_map st) (dep_paths st) v (deps_rebuilds st) (f4cache st)
    (stages_checked st) (skip_dep_warnings st) (value_overrides st) (disk st)
    (console st) (executed st).

Definition set_deps_rebuilds (v : gmap string nat) (st : State) : State :=
  mkState (os_map st) (dep_paths st) (run_stages st) v (f4cache st)
    (stages_checked st) (skip_dep_warnings st) (value_overrides st) (disk st)
    (console st) (executed st).

Definition set_f4cache (v : option (Cache E)) (st : State) : State :=
  mkState (os_map st) (dep_paths st) (run_stages st) (deps_rebuilds st) v
    (stages_checked st) (skip_dep_warnings st) (value_overrides st) (disk st)
    (console st) (executed st).

Definition set_stages_checked (v : gset string) (st : State) : State :=
  mkState (os_map st) (dep_paths st) (run_stages st) (deps_rebuilds st)
    (f4cache st) v (skip_dep_warnings st) (value_overrides st) (disk st)
    (console st) (executed st).

Definition set_skip_dep_warnings (v : gset string) (st : State) : State :=
  mkState (os_map st) (dep_paths st) (run_stages st) (deps_rebuilds st)
    (f4cache st) (stages_checked st) v (value_overrides st) (disk st)
    (console st) (executed st).

Definition set_value_overrides (v : gmap string (gmap string pyval))
    (st : State) : State :=
  mkState (os_map st) (dep_paths st) (run_stages st) (deps_rebuilds st)
    (f4cache st) (stages_checked st) (skip_dep_warnings st) v (disk st)
    (console st) (executed st).

Definition set_disk (v : Disk) (st : State) : State :=
  mkState (os_map st) (dep_paths st) (run_stages st) (deps_rebuilds st)
    (f4cache st) (stages_checked st) (skip_dep_warnings st)
    (value_overrides st) v (console st) (executed st).

(** [sfprint(verbosity, message)]. *)
Definition sfprint (verbosity : nat) (d : diag) (st : State) : State :=
  mkState (os_map st) (dep_paths st) (run_stages st) (deps_rebuilds st)
    (f4cache st) (stages_checked st) (skip_dep_warnings st)
    (value_overrides st) (disk st) (console st ++ [(verbosity, d)])
    (executed st).

Definition log_executed (stage : string) (st : State) : State :=
  mkState (os_map st) (dep_paths st) (run_stages st) (deps_rebuilds st)
    (f4cache st) (stages_checked st) (skip_dep_warnings st)
    (value_overrides st) (disk st) (console st) (executed st ++ [stage]).

(** [stage.value_overrides[key] = v]. *)
Definition write_value_override (stage key : string) (v : pyval) (st : State)
    : State :=
  set_value_overrides
    (<[stage := <[key := v]> (default ∅ (value_overrides st !! stage))]>
       (value_overrides st)) st.

(** Computations on the state that may raise. *)
Definition M (A : Type) : Type := State -> result (A * State).

Definition ret {A} (a : A) : M A := fun st => Ret (a, st).

Definition bind {A B} (c : M A) (k : A -> M B) : M B :=
  fun st =>
    match c st with
    | Ret (a, st') => k a st'
    | Raise e => Raise e
    | OutOfFuel => OutOfFuel
    end.

Definition raise {A} (e : error) : M A := fun _ => Raise e.
Definition get : M State := fun st => Ret (st, st).
Definition modify (f : State -> State) : M unit := fun st => Ret (tt, f st).
Definition lift {A} (r : result A) : M A :=
  fun st => rbind r (fun a => Ret (a, st)).


Notation "x <- c ;; k" := (bind c (fun x => k))
  (at level 100, c at next level, right associativity).
Notation "c ;;; k" := (bind c (fun _ => k))
  (at level 100, right associativity).

(** ** Planner *)

(** [Flow._config_mod_runctx(stage, values, dep_paths, config_paths)]. *)
Definition _config_mod_runctx (stage : Stage.t) (values : Values E)
    (dep_paths : gmap string pyval) (config_paths : list (string * pyval))
    : ModRunCtx (Values E) :=
  let takes :=
    foldl (fun (acc : gmap string pyval) take =>
             let paths := py_get dep_paths (StageIO.name take) in
             if truthy paths then <[StageIO.name take := paths]> acc else acc)
          ∅ (Stage.takes stage) in
  let produces :=
    foldl (fun (acc : gmap string pyval) prod =>
             if truthy (py_get dep_paths (StageIO.name prod))
             then <[StageIO.name prod := py_get dep_paths (StageIO.name prod)]> acc
             else if truthy (items_get config_paths (StageIO.name prod))
             then <[StageIO.name prod := items_get config_paths (StageIO.name prod)]> acc
             else acc)
          ∅ (Stage.produces stage) in
  mkCtx takes produces values.

(** The context both runs of a provider's module get:
    [self._config_mod_runctx(provider, self.cfg.get_r_env(provider.name).values,
    self.dep_paths, self.cfg.get_dependency_overrides())]. *)
Definition provider_ctx (cfg : FlowConfig) (provider : Stage.t) (st : State)
    : ModRunCtx (Values E) :=
  _config_mod_runctx provider
    (r_env_values E (Stage.name provider)
       (default ∅ (value_overrides st !! Stage.name provider)))
    (dep_paths st) (dependency_overrides cfg).

(** [Flow._dep_will_differ(dep, paths, consumer)]. *)
Definition _dep_will_differ (st : State) (dep : string) (paths : pyval)
    (consumer : string) : bool :=
  match f4cache st with
  | None => true
  | Some fc =>
      match os_map st !! dep with
      | Some provider =>
          if bool_decide (Stage.name provider ∈ run_stages st) then true
          else p_dep_differ (disk st) paths consumer fc
      | None => p_dep_differ (disk st) paths consumer fc
      end
  end.

(** The planner's decision for one take (the [will_differ] variable). *)
Definition will_differ (st : State) (take : StageIO.t) (take_paths : pyval)
    (provider : Stage.t) : result bool :=
  match take_paths with
  | PNone => Ret false
  | _ =>
      rbind (p_req_exists (disk st) take_paths) (fun ex =>
        if ex
        then Ret (_dep_will_differ st (StageIO.name take) take_paths
                    (Stage.name provider))
        else Ret true)
  end.

(** The body of [if will_differ:]. *)
Definition flag_rebuild (take : StageIO.t) (provider : Stage.t) : M unit :=
  fun st =>
    let st1 :=
      if bool_decide (StageIO.name take ∈ skip_dep_warnings st) then st
      else set_skip_dep_warnings ({[StageIO.name take]} ∪ skip_dep_warnings st)
             (sfprint 2 (CausingRebuild (StageIO.name take) (Stage.name provider)) st) in
    let st2 := set_run_stages ({[Stage.name provider]} ∪ run_stages st1) st1 in
    match deps_rebuilds st2 !! StageIO.name take with
    | Some n => Ret (tt, set_deps_rebuilds (<[StageIO.name take := S n]> (deps_rebuilds st2)) st2)
    | None => Raise (KeyError (StageIO.name take))
    end.

(** [for take in provider.takes: ...]; [rec] is the recursive call of
    [_resolve_dependencies]. The result is [false] when the loop was left by
    the [return] under "unreachable", [true] when it ran to its end. *)
Fixpoint resolve_takes (rec : string -> M unit) (provider : Stage.t)
    (takes : list StageIO.t) : M bool :=
  match takes with
  | [] => ret true
  | take :: takes' =>
      rec (StageIO.name take) ;;;
      st <- get ;;
      let take_paths := py_get (dep_paths st) (StageIO.name take) in
      modify (write_value_override (Stage.name provider)
                (":" ++ StageIO.name take) take_paths) ;;;
      if negb (truthy take_paths) && bool_decide (StageIO.spec take = req)
      then modify (sfprint 0 (Unreachable (Stage.name provider) (StageIO.name take))) ;;;
           ret false
      else
        st <- get ;;
        wd <- lift (will_differ st take take_paths provider) ;;
        (if wd : bool then flag_rebuild take provider else ret tt) ;;;
        resolve_takes rec provider takes'
  end.

(** [for output_paths in outputs.values(): ...] (registering the outputs that
    exist with the cache). *)
Fixpoint cache_outputs (outputs : list (string * pyval)) : M unit :=
  match outputs with
  | [] => ret tt
  | (_, output_paths) :: outputs' =>
      match output_paths with
      | PNone => cache_outputs outputs'
      | _ =>
          st <- get ;;
          ex <- lift (p_req_exists (disk st) output_paths) ;;
          match ex, f4cache st with
          | true, Some fc =>
              modify (set_f4cache (Some (_cache_deps (disk st) output_paths fc)))
          | _, _ => ret tt
          end ;;;
          cache_outputs outputs'
      end
  end.

(** [for _, out_paths in outputs.items(): ...] (an output that is not on disk
    flags the provider). *)
Fixpoint flag_missing_outputs (provider : Stage.t)
    (outputs : list (string * pyval)) : M unit :=
  match outputs with
  | [] => ret tt
  | (_, out_paths) :: outputs' =>
      match out_paths with
      | PNone => flag_missing_outputs provider outputs'
      | _ =>
          st <- get ;;
          ex <- lift (p_req_exists (disk st) out_paths) ;;
          (if ex : bool then ret tt
           else modify (fun st => set_run_stages ({[Stage.name provider]} ∪ run_stages st) st)) ;;;
          flag_missing_outputs provider outputs'
      end
  end.

(** One round of [for o in provider.produces: ...] ("Verify module's outputs
    and add paths as values"). [os_map.pop(name)] raises [KeyError] when the
    key is absent. *)
Definition verify_output (cfg : FlowConfig) (provider : Stage.t)
    (outputs : list (string * pyval)) (o : StageIO.t) : M unit :=
  (if negb (items_has outputs (StageIO.name o))
   then
     if bool_decide (StageIO.spec o = req)
        || (bool_decide (StageIO.spec o = demand)
            && items_has (dependency_overrides cfg) (StageIO.name o))
     then raise (NameError "fatal")
     else
       st <- get ;;
       match os_map st !! StageIO.name o with
       | Some _ => modify (set_os_map (delete (StageIO.name o) (os_map st)))
       | None => raise (KeyError (StageIO.name o))
       end
   else ret tt) ;;;
  let o_path := items_get outputs (StageIO.name o) in
  match o_path with
  | PNone => ret tt
  | _ => modify (write_value_override (Stage.name provider)
                   (":" ++ StageIO.name o) o_path)
  end.

Fixpoint verify_outputs (cfg : FlowConfig) (provider : Stage.t)
    (outputs : list (string * pyval)) (os : list StageIO.t) : M unit :=
  match os with
  | [] => ret tt
  | o :: os' =>
      verify_output cfg provider outputs o ;;;
      verify_outputs cfg provider outputs os'
  end.

(** [self.dep_paths.update(outputs)]. *)
Definition dict_update (m : gmap string pyval) (items : list (string * pyval))
    : gmap string pyval :=
  foldl (fun acc kv => <[fst kv := snd kv]> acc) m items.

(** What [_resolve_dependencies] does for a provider once the loop over its
    takes has run to its end: the dry run and everything after it. *)
Definition resolve_outputs (cfg : FlowConfig) (provider : Stage.t) : M unit :=
  st <- get ;;
  outputs <- lift (module_map E (Stage.module provider) (provider_ctx cfg provider st)) ;;
  cache_outputs outputs ;;;
  modify (fun st => set_stages_checked ({[Stage.name provider]} ∪ stages_checked st) st) ;;;
  modify (fun st => set_dep_paths (dict_update (dep_paths st) outputs) st) ;;;
  flag_missing_outputs provider outputs ;;;
  verify_outputs cfg provider outputs (Stage.produces provider).

(** "Initialize the dependency status if necessary". *)
Definition init_rebuilds (dep : string) (st : State) : State :=
  match deps_rebuilds st !! dep with
  | None => set_deps_rebuilds (<[dep := 0]> (deps_rebuilds st)) st
  | Some _ => st
  end.

(** [Flow._resolve_dependencies(dep, stages_checked, skip_dep_warnings)];
    [fuel] bounds the depth of the recursion. *)
Fixpoint _resolve_dependencies (cfg : FlowConfig) (fuel : nat) (dep : string)
    : M unit :=
  match fuel with
  | O => fun _ => OutOfFuel
  | S fuel' =>
      modify (init_rebuilds dep) ;;;
      st <- get ;;
      let paths := py_get (dep_paths st) dep in
      if truthy paths && bool_decide (os_map st !! dep = None) then ret tt
      else
        match os_map st !! dep with
        | None => ret tt
        | Some provider =>
            if bool_decide (Stage.name provider ∈ stages_checked st) then ret tt
            else
              completed <- resolve_takes (_resolve_dependencies cfg fuel')
                             provider (Stage.takes provider) ;;
              if completed : bool then resolve_outputs cfg provider else ret tt
        end
  end.

(** ** Execution driver *)

(** [for p_dep in provider.takes: ...] of [_build_dep], with the running
    value of [any_dep_differ]; [rec] is the recursive call of [_build_dep]. *)
Fixpoint build_takes (rec : string -> M bool) (provider : Stage.t)
    (takes : list StageIO.t) (any_dep_differ : bool) : M bool :=
  match takes with
  | [] => ret any_dep_differ
  | p_dep :: takes' =>
      built <- rec (StageIO.name p_dep) ;;
      if negb built
      then
        if bool_decide (StageIO.spec p_dep = req) then raise AssertionError
        else build_takes rec provider takes' any_dep_differ
      else
        st <- get ;;
        match f4cache st with
        | Some fc =>
            match dep_paths st !! StageIO.name p_dep with
            | None => raise (KeyError (StageIO.name p_dep))
            | Some p_paths =>
                r <- lift (p_update_dep_statuses (disk st) p_paths
                             (Stage.name provider) fc) ;;
                modify (set_f4cache (Some (snd r))) ;;;
                build_takes rec provider takes' (any_dep_differ || fst r)
            end
        | None => build_takes rec provider takes' any_dep_differ
        end
  end.

(** [for product in provider.produces: ...] after the module has run.
    [dep] and [paths] are the artifact [_build_dep] was called for and its
    Path-Set; the loop tests [p_req_exists(paths)] in every round. *)
Fixpoint check_products (dep : string) (paths : pyval) (provider : Stage.t)
    (products : list StageIO.t) : M unit :=
  match products with
  | [] => ret tt
  | product :: products' =>
      st <- get ;;
      (if bool_decide (StageIO.spec product = req)
       then
         ex <- lift (p_req_exists (disk st) paths) ;;
         if ex : bool then ret tt
         else raise (DependencyNotProducedException dep (Stage.name provider))
       else ret tt) ;;;
      match dep_paths st !! StageIO.name product with
      | None => raise (KeyError (StageIO.name product))
      | Some PNone => ret tt
      | Some prod_paths =>
          ex <- lift (p_req_exists (disk st) paths) ;;
          match ex, f4cache st with
          | true, Some fc =>
              modify (set_f4cache (Some (_cache_deps (disk st) prod_paths fc)))
          | _, _ => ret tt
          end
      end ;;;
      check_products dep paths provider products'
  end.

(** From [module_exec(...)] to the end of the loop over the produces. *)
Definition run_provider (cfg : FlowConfig) (dep : string) (paths : pyval)
    (provider : Stage.t) : M unit :=
  st <- get ;;
  dk <- lift (module_exec E (Stage.module provider) (provider_ctx cfg provider st)
                (disk st)) ;;
  modify (fun st => log_executed (Stage.name provider) (set_disk dk st)) ;;;
  modify (fun st => set_run_stages (run_stages st ∖ {[Stage.name provider]}) st) ;;;
  check_products dep paths provider (Stage.produces provider).

(** The value [any_dep_differ] starts from:
    [False if (self.f4cache is not None) else True]. *)
Definition initial_flag (st : State) : bool :=
  match f4cache st with Some _ => false | None => true end.

(** [Flow._build_dep(dep)]; [fuel] bounds the depth of the recursion. *)
Fixpoint _build_dep (cfg : FlowConfig) (fuel : nat) (dep : string) : M bool :=
  match fuel with
  | O => fun _ => OutOfFuel
  | S fuel' =>
      st <- get ;;
      let paths := py_get (dep_paths st) dep in
      if negb (truthy paths)
      then modify (sfprint 2 (Unresolved dep)) ;;; ret false
      else
        let run :=
          match os_map st !! dep with
          | Some provider => bool_decide (Stage.name provider ∈ run_stages st)
          | None => false
          end in
        ex <- lift (p_req_exists (disk st) paths) ;;
        if ex && negb run then ret true
        else
          match os_map st !! dep with
          | None => raise AssertionError
          | Some provider =>
              any_dep_differ <-
                build_takes (_build_dep cfg fuel') provider (Stage.takes provider)
                  (initial_flag st) ;;
              st' <- get ;;
              skip <- (if negb any_dep_differ
                       then lift (p_req_exists (disk st') paths)
                       else ret false) ;;
              if skip : bool
              then modify (sfprint 2 (SkippingRebuild dep)) ;;; ret true
              else run_provider cfg dep paths provider ;;; ret true
          end
  end.

(** [Flow.execute()]. *)
Definition execute (cfg : FlowConfig) (target : string) (fuel : nat) : M unit :=
  _build_dep cfg fuel target ;;;
  st <- get ;;
  match f4cache st with
  | Some fc =>
      match dep_paths st !! target with
      | None => raise (KeyError target)
      | Some paths =>
          r <- lift (p_update_dep_statuses (disk st) paths "__target"
                       (_cache_deps (disk st) paths fc)) ;;
          modify (set_f4cache (Some (snd r)))
      end
  | None => ret tt
  end ;;;
  st <- get ;;
  match dep_paths st !! target with
  | None => raise (KeyError target)
  | Some paths => modify (sfprint 0 (TargetAt target paths))
  end.

(** ** Construction *)

(** The dict comprehension that seeds [dep_paths]: the items of the
    overrides that pass [(p is not None) and p_req_exists(p)], in order. *)
Fixpoint seed_items (dk : Disk) (overrides : list (string * pyval))
    : result (list (string * pyval)) :=
  match overrides with
  | [] => Ret []
  | (n, p) :: overrides' =>
      rbind (match p with PNone => Ret false | _ => p_req_exists dk p end)
        (fun keep =>
           rbind (seed_items dk overrides')
             (fun rest => Ret (if keep : bool then (n, p) :: rest else rest)))
  end.

Definition seed_dep_paths (dk : Disk) (overrides : list (string * pyval))
    : result (gmap string pyval) :=
  rbind (seed_items dk overrides) (fun items => Ret (dict_update ∅ items)).

(** [Flow.__init__(target, cfg, f4cache)], started on disk [dk]. *)
Definition Flow_init (cfg : FlowConfig) (target : string)
    (cache : option (Cache E)) (dk : Disk) (fuel : nat) : result State :=
  rbind (build_os_map (stages cfg) ∅) (fun os_map =>
  rbind (seed_items dk (dependency_overrides cfg)) (fun items =>
    let cache' :=
      match cache with
      | Some fc => Some (foldl (fun fc kv => _cache_deps dk (snd kv) fc) fc items)
      | None => None
      end in
    let st := mkState os_map (dict_update ∅ items) ∅ ∅ cache' ∅ ∅ ∅ dk [] [] in
    rbind (_resolve_dependencies cfg fuel target st) (fun r => Ret (snd r)))).

End WithEnv.

(** Unfolds the monad's operations. *)
Ltac munfold :=
  simpl in *; unfold bind, ret, get, modify, lift, raise, rbind in *; simpl in *.

Arguments os_map {E}.
Arguments dep_paths {E}.
Arguments run_stages {E}.
Arguments deps_rebuilds {E}.
Arguments f4cache {E}.
Arguments stages_checked {E}.
Arguments skip_dep_warnings {E}.
Arguments value_overrides {E}.
Arguments disk {E}.
Arguments console {E}.
Arguments executed {E}.


(** ** Resolution reporter *)

(** The status mark of a line, [[X]], [[R]], [[S]], [[N]], [[O]] or [[U]], and
    what follows the artifact's name. *)
Inductive status_mark : Type := MarkX | MarkR | MarkS | MarkN | MarkO | MarkU.

Inductive dep_source : Type :=
| SrcMissing
| SrcStage (stage : string) (paths : pyval)
| SrcPaths (paths : pyval)
| SrcStageUnknown (stage : string).

(** The order [deps.sort()] puts strings in: character by character, by
    code. *)
Definition str_le (a b : string) : Prop := String.leb a b = true.

#[global] Instance str_le_dec : RelDecision str_le.
Proof. intros a b. unfold str_le. apply _. Defined.

Section Reporter.

Context (E : Env).

(** The body of the loop of [Flow.print_resolved_dependencies] for one
    [dep]: the mark and the source of its line. *)
Definition resolved_line (st : State E) (dep : string)
    : result (status_mark * dep_source) :=
  let paths := py_get (dep_paths st) dep in
  if truthy paths
  then
    rbind (p_req_exists (disk st) paths) (fun ex =>
      match os_map st !! dep with
      | Some provider =>
          if bool_decide (Stage.name provider ∈ run_stages st)
          then Ret (if ex : bool then MarkR else MarkS,
                    SrcStage (Stage.name provider) paths)
          else if ex
          then match deps_rebuilds st !! dep with
               | Some n => Ret (if Nat.ltb 0 n then MarkN else MarkO, SrcPaths paths)
               | None => Raise (KeyError dep)
               end
          else Ret (MarkX, SrcMissing)
      | None =>
          if ex
          then match deps_rebuilds st !! dep with
               | Some n => Ret (if Nat.ltb 0 n then MarkN else MarkO, SrcPaths paths)
               | None => Raise (KeyError dep)
               end
          else Ret (MarkX, SrcMissing)
      end)
  else
    match os_map st !! dep with
    | Some provider => Ret (MarkU, SrcStageUnknown (Stage.name provider))
    | None => Ret (MarkX, SrcMissing)
    end.

(** [for dep in deps: ...] over the sorted keys: the lines in the order they
    are printed. *)
Fixpoint resolved_lines (st : State E) (deps : list string)
    : result (list (string * (status_mark * dep_source))) :=
  match deps with
  | [] => Ret []
  | dep :: deps' =>
      rbind (resolved_line st dep) (fun line =>
        rbind (resolved_lines st deps') (fun rest => Ret ((dep, line) :: rest)))
  end.

(** [Flow.print_resolved_dependencies(verbosity)]: the keys of
    [deps_rebuilds], sorted, one line each; the lines are the result, the
    verbosity only gates their display. *)
Definition print_resolved_dependencies (st : State E)
    : result (list (string * (status_mark * dep_source))) :=
  resolved_lines st
    (merge_sort str_le (map fst (map_to_list (deps_rebuilds st)))).

End Reporter.
(** * Predicates used in the statements *)

(** Every output name is declared by one stage of the list at most. *)
Definition owned_once (stages : list Stage.t) : Prop :=
  forall s1 s2 o, s1 ∈ stages -> s2 ∈ stages ->
    o ∈ output_names s1 -> o ∈ output_names s2 -> s1 = s2.

(** Every entry of the map points to a stage of the list that declares it. *)
Definition entries_from (stages : list Stage.t) (m : gmap string Stage.t)
    : Prop :=
  forall o s, m !! o = Some s -> s ∈ stages /\ o ∈ output_names s.

(** The path a Path-Set leads to when one always takes the first member of
    a list and the first item of a mapping; [None] when that descent ends in
    an empty container or in a value of another type. *)
Fixpoint first_path (v : pyval) : option string :=
  match v with
  | PStr s => Some s
  | PList (p :: _) => first_path p
  | PDict ((_, p) :: _) => first_path p
  | _ => None
  end.

(** Every path of a Path-Set: the strings reached through lists and through
    the values of mappings, from left to right. *)
Fixpoint path_leaves (v : pyval) : list string :=
  match v with
  | PStr s => [s]
  | PList l =>
      (fix each (l : list pyval) : list string :=
         match l with
         | [] => []
         | x :: l' => (path_leaves x ++ each l')%list
         end) l
  | PDict d =>
      (fix each (d : list (string * pyval)) : list string :=
         match d with
         | [] => []
         | (_, x) :: d' => (path_leaves x ++ each d')%list
         end) d
  | _ => []
  end.

(** What the planner may do to a state: it leaves the disk and the executed
    stages alone, adds to [stages_checked], [run_stages], the warned names and
    the console, removes entries of the output-stage map, and adds keys and
    counts to [deps_rebuilds]; it never creates a cache. *)
Definition planner_step {E : Env} (st st' : State E) : Prop :=
  disk st' = disk st /\
  executed st' = executed st /\
  stages_checked st ⊆ stages_checked st' /\
  run_stages st ⊆ run_stages st' /\
  skip_dep_warnings st ⊆ skip_dep_warnings st' /\
  (forall k s, os_map st' !! k = Some s -> os_map st !! k = Some s) /\
  (forall k n, deps_rebuilds st !! k = Some n ->
     exists n', deps_rebuilds st' !! k = Some n' /\ n <= n') /\
  (f4cache st = None -> f4cache st' = None) /\
  console st `prefix_of` console st'.

(** What the driver may do to a state: the tables of the planner stay as
    they are, stages leave [run_stages], and the executed stages and the
    console grow at their ends; it never creates a cache. *)
Definition driver_step {E : Env} (st st' : State E) : Prop :=
  os_map st' = os_map st /\
  dep_paths st' = dep_paths st /\
  deps_rebuilds st' = deps_rebuilds st /\
  stages_checked st' = stages_checked st /\
  value_overrides st' = value_overrides st /\
  run_stages st' ⊆ run_stages st /\
  (f4cache st = None -> f4cache st' = None) /\
  executed st `prefix_of` executed st' /\
  console st `prefix_of` console st'.

(** * Small flows on which the statements are exercised *)

Module Scenario.

(** The disk that holds the files of a list, and a disk with one more file. *)
Definition files (l : list string) : Disk :=
  fun r => existsb (String.eqb r) l.
Definition written (f : string) (dk : Disk) : Disk :=
  fun r => String.eqb r f || dk r.

(** A cache that logs the [update] calls and reports a change for
    ["src.v"] only; modules ["A"], ["B"], ["D"] map and write one file each,
    module ["P"] maps two outputs and writes only the first. *)
Definition demo : Env :=
  mkEnv (list (string * string)) unit
    (fun _ _ fc => fc)
    (fun s c _ fc => (String.eqb s "src.v", (fc ++ [(s, c)])%list))
    (fun _ _ _ => "same")
    (fun m _ =>
       if String.eqb m "A" then Ret [("x", PStr "x.out")]
       else if String.eqb m "B" then Ret [("y", PStr "y.out")]
       else if String.eqb m "D" then Ret [("v", PStr "v.out")]
       else if String.eqb m "P" then Ret [("x", PStr "x.out"); ("y", PStr "y.out")]
       else Ret [])
    (fun m _ dk =>
       if String.eqb m "A" then Ret (written "x.out" dk)
       else if String.eqb m "B" then Ret (written "y.out" dk)
       else if String.eqb m "D" then Ret (written "v.out" dk)
       else if String.eqb m "P" then Ret (written "x.out" dk)
       else Ret dk)
    (fun _ _ => tt).

(** src -> A -> x -> B -> y *)
Definition A : Stage.t :=
  Stage.mk "A" [StageIO.mk "src" req] [StageIO.mk "x" req] "A".
Definition B : Stage.t :=
  Stage.mk "B" [StageIO.mk "x" req] [StageIO.mk "y" req] "B".
Definition cfgAB : FlowConfig := mkCfg [A; B] [("src", PStr "src.v")].

(** A second stage that also declares ["x"]. *)
Definition A2 : Stage.t := Stage.mk "A2" [] [StageIO.mk "x" maybe] "A".

(** A stage that declares ["x"] twice. *)
Definition S2 : Stage.t :=
  Stage.mk "S2" [] [StageIO.mk "x" req; StageIO.mk "z" maybe; StageIO.mk "x" req] "A".

(** One stage with two required outputs. *)
Definition P : Stage.t :=
  Stage.mk "P" [] [StageIO.mk "x" req; StageIO.mk "y" req] "P".
Definition cfgP : FlowConfig := mkCfg [P] [].

(** A stage whose required take nobody provides. *)
Definition D : Stage.t :=
  Stage.mk "D" [StageIO.mk "w" req] [StageIO.mk "v" req] "D".
Definition cfgD : FlowConfig := mkCfg [D] [].

(** A stage with two required outputs whose module maps only the first. *)
Definition Q : Stage.t :=
  Stage.mk "Q" [] [StageIO.mk "x" req; StageIO.mk "y" req] "A".
Definition cfgQ : FlowConfig := mkCfg [Q] [].
Definition startQ : State demo :=
  mkState demo (<["y" := Q]> (<["x" := Q]> ∅)) ∅ ∅ ∅ None ∅ ∅ ∅ (files []) [] [].

(** An override for an artifact that stage [A] produces. *)
Definition cfgAx : FlowConfig := mkCfg [A] [("x", PStr "x.txt")].

(** The flow over [cfgAB] after planning flagged both stages, with every
    file on disk; [with_cache] chooses between a cache and none. *)
Definition flagged (with_cache : bool) : State demo :=
  mkState demo
    (<["y" := B]> (<["x" := A]> ∅))
    (<["y" := PStr "y.out"]> (<["x" := PStr "x.out"]> (<["src" := PStr "src.v"]> ∅)))
    {["A"; "B"]} ∅
    (if with_cache then Some [] else None)
    ∅ ∅ ∅ (files ["src.v"; "x.out"; "y.out"]) [] [].

(** The flow over [cfgAB] before planning: only the source file exists. *)
Definition startAB : State demo :=
  mkState demo
    (<["y" := B]> (<["x" := A]> ∅)) (<["src" := PStr "src.v"]> ∅)
    ∅ ∅ None ∅ ∅ ∅ (files ["src.v"]) [] [].

(** A flow state over the outputs of [S2], whose module maps ["x"] only. *)
Definition startS2 : State demo :=
  mkState demo (<["z" := S2]> (<["x" := S2]> ∅)) ∅ ∅ ∅ None ∅ ∅ ∅ (files []) [] [].

(** The flow over [cfgAB] after a planning pass, with its rebuild counters. *)
Definition counted : State demo :=
  mkState demo
    (<["y" := B]> (<["x" := A]> ∅))
    (<["y" := PStr "y.out"]> (<["x" := PStr "x.out"]> (<["src" := PStr "src.v"]> ∅)))
    {["B"]} (<["y" := 0]> (<["x" := 1]> (<["src" := 0]> ∅)))
    None ∅ ∅ ∅ (files ["src.v"; "x.out"]) [] [].

(** An empty flow state over the outputs of [D]. *)
Definition startD : State demo :=
  mkState demo (<["v" := D]> ∅) ∅ ∅ ∅ None ∅ ∅ ∅ (files []) [] [].

End Scenario.

(** * Properties of the construction *)

Section OutputStageMap.

Implicit Types (stages : list Stage.t) (m : gmap string Stage.t).

Lemma stage_neq_refl s : stage_neq s s = false.
Proof. unfold stage_neq. by rewrite String.eqb_refl. Qed.

Lemma stage_neq_true a b : stage_neq a b = true <-> Stage.name a <> Stage.name b.
Proof.
  unfold stage_neq. destruct (String.eqb_spec (Stage.name a) (Stage.name b));
    simpl; split; intros; congruence.
Qed.

Lemma entries_from_empty stages : entries_from stages ∅.
Proof. intros o s H. by rewrite lookup_empty in H. Qed.

Lemma entries_from_insert stages m o s :
  entries_from stages m -> s ∈ stages -> o ∈ output_names s ->
  entries_from stages (<[o := s]> m).
Proof.
  intros Hm Hs Ho o' s' H. destruct (decide (o = o')) as [->|Hne].
  - rewrite lookup_insert_eq in H. by inversion H; subst.
  - rewrite lookup_insert_ne in H by done. by apply Hm.
Qed.

(** The inner loop succeeds when ownership is unique, and keeps the entries
    inside the stage list. *)
Lemma claim_outputs_owned all stage outs m :
  owned_once all -> stage ∈ all ->
  (forall o, o ∈ outs -> StageIO.name o ∈ output_names stage) ->
  entries_from all m ->
  exists m', claim_outputs stage outs m = Ret m' /\ entries_from all m'.
Proof.
  intros Hown Hin. revert m.
  induction outs as [|o outs IH]; intros m Houts Hm; simpl.
  - eauto.
  - assert (Ho : StageIO.name o ∈ output_names stage)
      by (apply Houts; left).
    assert (Hrest : forall o', o' ∈ outs -> StageIO.name o' ∈ output_names stage)
      by (intros o' Ho'; apply Houts; by right).
    destruct (m !! StageIO.name o) as [owner|] eqn:Hlk.
    + destruct (Hm _ _ Hlk) as [Hown_in Hown_o].
      rewrite (Hown owner stage (StageIO.name o)) by done.
      rewrite stage_neq_refl. by apply IH.
    + apply IH; [done|]. by apply entries_from_insert.
Qed.

Lemma build_os_map_owned all stages m :
  owned_once all -> stages ⊆ all -> entries_from all m ->
  exists m', build_os_map stages m = Ret m' /\ entries_from all m'.
Proof.
  intros Hown. revert m.
  induction stages as [|s stages IH]; intros m Hsub Hm; simpl.
  - eauto.
  - destruct (claim_outputs_owned all s (Stage.produces s) m) as (m1 & -> & Hm1);
      try done.
    + apply Hsub. left.
    + intros o Ho. unfold output_names. apply list_elem_of_fmap. eauto.
    + simpl. apply IH; [|done]. intros x Hx. apply Hsub. by right.
Qed.

(** What a successful inner loop leaves behind: old entries stay, and every
    name of the loop is owned by a stage with the name of the claiming one. *)
Lemma claim_outputs_ret stage outs m m' :
  claim_outputs stage outs m = Ret m' ->
  (forall o s, m !! o = Some s -> m' !! o = Some s) /\
  (forall o, o ∈ outs ->
     exists w, m' !! StageIO.name o = Some w /\ Stage.name w = Stage.name stage) /\
  (forall o s, m' !! o = Some s -> m !! o = Some s \/ s = stage).
Proof.
  revert m. induction outs as [|o outs IH]; intros m H; simpl in H.
  - inversion H; subst. split_and!; [done| |by left].
    intros o Ho. by apply elem_of_nil in Ho.
  - destruct (m !! StageIO.name o) as [owner|] eqn:Hlk.
    + destruct (stage_neq owner stage) eqn:Hneq; [done|].
      destruct (IH _ H) as (Hkeep & Hnew & Hold). split_and!; [done| |done].
      intros o' [->|Ho']%elem_of_cons; [|by apply Hnew].
      exists owner. split; [by apply Hkeep|].
      destruct (String.eqb_spec (Stage.name owner) (Stage.name stage)) as [?|Hn];
        [done|]. apply stage_neq_true in Hn. congruence.
    + destruct (IH _ H) as (Hkeep & Hnew & Hold). split_and!.
      * intros o' s Hs. apply Hkeep. rewrite lookup_insert_ne; [done|].
        intros <-. congruence.
      * intros o' [->|Ho']%elem_of_cons; [|by apply Hnew].
        exists stage. split; [|done]. apply Hkeep. by rewrite lookup_insert_eq.
      * intros o' s Hs. destruct (Hold _ _ Hs) as [Hi| ->]; [|by right].
        destruct (decide (StageIO.name o = o')) as [<-|Hne].
        -- rewrite lookup_insert_eq in Hi. right. congruence.
        -- rewrite lookup_insert_ne in Hi by done. by left.
Qed.

Lemma build_os_map_ret stages m m' :
  build_os_map stages m = Ret m' ->
  (forall o s, m !! o = Some s -> m' !! o = Some s) /\
  (forall s o, s ∈ stages -> o ∈ output_names s ->
     exists w, m' !! o = Some w /\ Stage.name w = Stage.name s).
Proof.
  revert m. induction stages as [|s stages IH]; intros m H; simpl in H.
  - inversion H; subst. split; [done|]. intros s o Hs. by apply elem_of_nil in Hs.
  - destruct (claim_outputs s (Stage.produces s) m) as [m1| |] eqn:Hc; try done.
    simpl in H. destruct (claim_outputs_ret _ _ _ _ Hc) as (Hk1 & Hn1 & _).
    destruct (IH _ H) as (Hk2 & Hn2). split; [by eauto|].
    intros s' o [->|Hs']%elem_of_cons Ho; [|by eauto].
    unfold output_names in Ho. apply list_elem_of_fmap in Ho as (io & -> & Hio).
    destruct (Hn1 _ Hio) as (w & Hw & Hname). eauto.
Qed.

(** The only way the loops fail: the duplicate-provider exception, naming an
    output and two stages of different names that both declare it. *)
Lemma claim_outputs_raise all stage outs m :
  stage ∈ all -> (forall o, o ∈ outs -> StageIO.name o ∈ output_names stage) ->
  entries_from all m ->
  (exists m', claim_outputs stage outs m = Ret m' /\ entries_from all m') \/
  (exists o t1 t2,
     claim_outputs stage outs m =
       Raise (Exception (MsgDuplicateProvider o (Stage.name t1) (Stage.name t2)))
     /\ t1 ∈ all /\ t2 ∈ all /\ o ∈ output_names t1 /\ o ∈ output_names t2
     /\ Stage.name t1 <> Stage.name t2).
Proof.
  intros Hin. revert m. induction outs as [|o outs IH]; intros m Houts Hm; simpl.
  - left. eauto.
  - assert (Ho : StageIO.name o ∈ output_names stage) by (apply Houts; left).
    assert (Hrest : forall o', o' ∈ outs -> StageIO.name o' ∈ output_names stage)
      by (intros o' Ho'; apply Houts; by right).
    destruct (m !! StageIO.name o) as [owner|] eqn:Hlk.
    + destruct (stage_neq owner stage) eqn:Hneq.
      * right. destruct (Hm _ _ Hlk) as [? ?]. apply stage_neq_true in Hneq.
        exists (StageIO.name o), owner, stage. by split_and!.
      * by apply IH.
    + apply IH; [done|]. by apply entries_from_insert.
Qed.

Lemma build_os_map_raise all stages m :
  stages ⊆ all -> entries_from all m ->
  (exists m', build_os_map stages m = Ret m' /\ entries_from all m') \/
  (exists o t1 t2,
     build_os_map stages m =
       Raise (Exception (MsgDuplicateProvider o (Stage.name t1) (Stage.name t2)))
     /\ t1 ∈ all /\ t2 ∈ all /\ o ∈ output_names t1 /\ o ∈ output_names t2
     /\ Stage.name t1 <> Stage.name t2).
Proof.
  revert m. induction stages as [|s stages IH]; intros m Hsub Hm; simpl.
  - left. eauto.
  - destruct (claim_outputs_raise all s (Stage.produces s) m)
      as [(m1 & -> & Hm1)|(o & t1 & t2 & -> & ?)]; try done.
    + apply Hsub. left.
    + intros o Ho. unfold output_names. apply list_elem_of_fmap. eauto.
    + simpl. apply IH; [|done]. intros x Hx. apply Hsub. by right.
    + right. exists o, t1, t2. by split.
Qed.

End OutputStageMap.

(** C4: when every output name is declared by one stage at most, building the
    output-stage map succeeds and the map is the index of the stage list: every
    output a stage declares is mapped to that stage, and every entry points to
    a stage of the list that declares its key. When two stages of different
    names declare a common output, building the map raises the
    duplicate-provider exception, which names an output and two such stages,
    and the constructor ends with that exception whatever the target, cache,
    disk and recursion depth, that is, before planning starts. *)
Theorem os_map_unique_or_duplicate_error (E : Env) (cfg : FlowConfig) :
  (owned_once (stages cfg) ->
   exists m,
     build_os_map (stages cfg) ∅ = Ret m /\
     (forall s o, s ∈ stages cfg -> o ∈ output_names s -> m !! o = Some s) /\
     (forall o s, m !! o = Some s -> s ∈ stages cfg /\ o ∈ output_names s)) /\
  (forall s1 s2 o,
     s1 ∈ stages cfg -> s2 ∈ stages cfg -> Stage.name s1 <> Stage.name s2 ->
     o ∈ output_names s1 -> o ∈ output_names s2 ->
     exists o' t1 t2,
       t1 ∈ stages cfg /\ t2 ∈ stages cfg /\
       o' ∈ output_names t1 /\ o' ∈ output_names t2 /\
       Stage.name t1 <> Stage.name t2 /\
       build_os_map (stages cfg) ∅ =
         Raise (Exception (MsgDuplicateProvider o' (Stage.name t1) (Stage.name t2))) /\
       forall target cache dk fuel,
         Flow_init E cfg target cache dk fuel =
           Raise (Exception (MsgDuplicateProvider o' (Stage.name t1) (Stage.name t2)))).
Proof.
  split.
  - intros Hown.
    destruct (build_os_map_owned (stages cfg) (stages cfg) ∅) as (m & Hm & Hfrom);
      [done|done|apply entries_from_empty|].
    exists m. split; [done|]. split; [|exact Hfrom].
    intros s o Hs Ho.
    destruct (build_os_map_ret _ _ _ Hm) as [_ Hall].
    destruct (Hall _ _ Hs Ho) as (w & Hw & _).
    destruct (Hfrom _ _ Hw) as [Hw_in Hw_o].
    by rewrite (Hown s w o).
  - intros s1 s2 o Hs1 Hs2 Hne Ho1 Ho2.
    destruct (build_os_map_raise (stages cfg) (stages cfg) ∅)
      as [(m & Hm & _)|(o' & t1 & t2 & Hr & Ht1 & Ht2 & Hot1 & Hot2 & Hnames)];
      [done|apply entries_from_empty| |].
    + destruct (build_os_map_ret _ _ _ Hm) as [_ Hall].
      destruct (Hall _ _ Hs1 Ho1) as (w1 & Hw1 & Hn1).
      destruct (Hall _ _ Hs2 Ho2) as (w2 & Hw2 & Hn2).
      congruence.
    + exists o', t1, t2. split_and!; try done.
      intros target cache dk fuel. unfold Flow_init. by rewrite Hr.
Qed.

Lemma os_map_unique_or_duplicate_error_witness :
  (exists m,
     build_os_map (stages Scenario.cfgAB) ∅ = Ret m /\
     m !! "x" = Some Scenario.A /\ m !! "y" = Some Scenario.B) /\
  (exists o' t1 t2,
     build_os_map [Scenario.A; Scenario.A2] ∅ =
       Raise (Exception (MsgDuplicateProvider o' t1 t2))).
Proof.
  split.
  - destruct (os_map_unique_or_duplicate_error Scenario.demo Scenario.cfgAB)
      as [H _].
    destruct H as (m & Hm & Hall & _).
    + intros s1 s2 o Hs1 Hs2 Ho1 Ho2.
      repeat (apply elem_of_cons in Hs1 as [->|Hs1]);
        repeat (apply elem_of_cons in Hs2 as [->|Hs2]);
        try (by apply elem_of_nil in Hs1); try (by apply elem_of_nil in Hs2);
        try done;
        vm_compute in Ho1, Ho2;
        repeat (apply elem_of_cons in Ho1 as [->|Ho1]);
        repeat (apply elem_of_cons in Ho2 as [Ho2|Ho2]);
        try (by apply elem_of_nil in Ho1); try (by apply elem_of_nil in Ho2);
        discriminate.
    + exists m. split; [exact Hm|]. split.
      * apply Hall; [left|left].
      * apply Hall; [right; left|left].
  - destruct (os_map_unique_or_duplicate_error Scenario.demo
                (mkCfg [Scenario.A; Scenario.A2] [])) as [_ H].
    destruct (H Scenario.A Scenario.A2 "x") as (o' & t1 & t2 & _ & _ & _ & _ & _ & Hr & _).
    + left.
    + right. left.
    + discriminate.
    + left.
    + left.
    + exists o', (Stage.name t1), (Stage.name t2). exact Hr.
Defined.

(** C10: the duplicate-provider exception is raised only for two stages of
    different names that declare a common output; in a stage list where a
    stage repeats an output name in its own produces, and no other stage
    declares a name twice over, construction of the map succeeds and the
    repeated name is mapped to that stage. *)
Theorem repeated_output_of_one_stage (stages : list Stage.t) :
  (forall e, build_os_map stages ∅ = Raise e ->
     exists o t1 t2,
       e = Exception (MsgDuplicateProvider o (Stage.name t1) (Stage.name t2)) /\
       t1 ∈ stages /\ t2 ∈ stages /\
       o ∈ output_names t1 /\ o ∈ output_names t2 /\
       Stage.name t1 <> Stage.name t2) /\
  (forall s (pre mid post : list StageIO.t) (o1 o2 : StageIO.t),
     owned_once stages -> s ∈ stages ->
     Stage.produces s = (pre ++ o1 :: mid ++ o2 :: post)%list ->
     StageIO.name o1 = StageIO.name o2 ->
     exists m, build_os_map stages ∅ = Ret m /\ m !! StageIO.name o1 = Some s).
Proof.
  split.
  - intros e He.
    destruct (build_os_map_raise stages stages ∅)
      as [(m & Hm & _)|(o & t1 & t2 & Hr & ?)];
      [done|apply entries_from_empty| |].
    + congruence.
    + exists o, t1, t2. split; [congruence|done].
  - intros s pre mid post o1 o2 Hown Hs Hprod Hsame.
    destruct (build_os_map_owned stages stages ∅) as (m & Hm & Hfrom);
      [done|done|apply entries_from_empty|].
    exists m. split; [done|].
    destruct (build_os_map_ret _ _ _ Hm) as [_ Hall].
    assert (Ho : StageIO.name o1 ∈ output_names s).
    { unfold output_names. rewrite Hprod. apply list_elem_of_fmap.
      exists o1. split; [done|]. apply elem_of_app. right. left. }
    destruct (Hall _ _ Hs Ho) as (w & Hw & _).
    destruct (Hfrom _ _ Hw) as [Hw_in Hw_o].
    by rewrite (Hown s w (StageIO.name o1)).
Qed.

Lemma repeated_output_of_one_stage_witness :
  exists m, build_os_map [Scenario.S2] ∅ = Ret m /\ m !! "x" = Some Scenario.S2.
Proof.
  destruct (repeated_output_of_one_stage [Scenario.S2]) as [_ H].
  apply (H Scenario.S2 [] [StageIO.mk "z" maybe] [] (StageIO.mk "x" req)
           (StageIO.mk "x" req)).
  - intros s1 s2 o Hs1 Hs2 _ _.
    apply list_elem_of_singleton in Hs1, Hs2. congruence.
  - left.
  - reflexivity.
  - reflexivity.
Defined.

(** * Properties of the Path-Set helpers *)

Section PathSets.

Context (E : Env).

(** C5: on a list and on a mapping the status update is the status update of
    the first member, whatever follows it; so the whole call is one [update]
    of the cache, for the first path, and the cache entries of the later
    members are those of before. *)
Theorem p_update_dep_statuses_first_only (dk : Disk) (consumer : string)
    (fc : Cache E) :
  (forall p rest,
     p_update_dep_statuses E dk (PList (p :: rest)) consumer fc =
     p_update_dep_statuses E dk p consumer fc) /\
  (forall k p rest,
     p_update_dep_statuses E dk (PDict ((k, p) :: rest)) consumer fc =
     p_update_dep_statuses E dk p consumer fc) /\
  (forall v,
     p_update_dep_statuses E dk v consumer fc =
     match first_path v with
     | Some s => Ret (update E s consumer dk fc)
     | None => Raise (NameError "fatal")
     end).
Proof.
  split_and!; [reflexivity|reflexivity|].
  fix IH 1. intros v.
  destruct v as [ |s|[|p l]|[|[k p] d]|z]; simpl; try reflexivity; apply IH.
Qed.

(** C6: on a value that is neither a string, a list nor a mapping, the
    existence check raises and the status update raises, but the differ check
    returns [False]. *)
Theorem path_helpers_on_other_types (dk : Disk) (consumer : string)
    (fc : Cache E) (z : Z) :
  (p_req_exists dk (PInt z) = Raise (Exception (MsgRequirementType (PInt z))) /\
   p_update_dep_statuses E dk (PInt z) consumer fc = Raise (NameError "fatal") /\
   p_dep_differ E dk (PInt z) consumer fc = false) /\
  (p_req_exists dk PNone = Raise (Exception (MsgRequirementType PNone)) /\
   p_update_dep_statuses E dk PNone consumer fc = Raise (NameError "fatal") /\
   p_dep_differ E dk PNone consumer fc = false).
Proof. by split_and!. Qed.

End PathSets.

(** * Properties of the seeding of [dep_paths] *)

Section Seeding.

Implicit Types (items overrides : list (string * pyval)).

Lemma seed_items_spec dk overrides items :
  seed_items dk overrides = Ret items ->
  (forall n p, (n, p) ∈ items <->
     (n, p) ∈ overrides /\ p <> PNone /\ p_req_exists dk p = Ret true) /\
  (NoDup overrides.*1 -> NoDup items.*1).
Proof.
  revert items. induction overrides as [|[n p] ov IH]; intros items H; simpl in H.
  - inversion H; subst. split; [|done]. intros n p. split.
    + intros Hin. by apply elem_of_nil in Hin.
    + intros [Hin _]. by apply elem_of_nil in Hin.
  - destruct (match p with PNone => Ret false | _ => p_req_exists dk p end)
      as [keep| |] eqn:Hkeep; try done. simpl in H.
    destruct (seed_items dk ov) as [rest| |]; try done. simpl in H.
    inversion H; subst; clear H. destruct (IH rest eq_refl) as [Hin Hnd].
    assert (Hkeep' : keep = true <-> p <> PNone /\ p_req_exists dk p = Ret true).
    { destruct p; try (inversion Hkeep; subst; split; [done|by intros [? ?]]);
        (split; [intros ->; by split|intros [_ Hp]; congruence]). }
    assert (Hsub : forall k, k ∈ rest.*1 -> k ∈ ov.*1).
    { intros k (kv & -> & Hk)%list_elem_of_fmap. destruct kv as [k v].
      apply list_elem_of_fmap. exists (k, v). split; [done|]. by apply Hin. }
    split.
    + intros n' p'. destruct keep.
      * rewrite !elem_of_cons, Hin. split.
        -- intros [Heq|?]; [|tauto]. inversion Heq; subst.
           destruct Hkeep' as [Hk _]. destruct (Hk eq_refl). tauto.
        -- tauto.
      * rewrite elem_of_cons, Hin. split; [tauto|].
        intros [[Heq|?] [? ?]]; [|tauto]. inversion Heq; subst.
        destruct Hkeep' as [_ Hk]. discriminate Hk. by split.
    + intros Hnodup. simpl in Hnodup. apply NoDup_cons in Hnodup as [Hn Hnodup].
      destruct keep; [|by apply Hnd]. simpl. apply NoDup_cons. split; [|by apply Hnd].
      intros Hc. by apply Hn, Hsub.
Qed.

Lemma dict_update_lookup items (m : gmap string pyval) n p :
  NoDup items.*1 ->
  dict_update m items !! n = Some p <->
  (n, p) ∈ items \/ ((n ∉ items.*1) /\ m !! n = Some p).
Proof.
  unfold dict_update. revert m.
  induction items as [|[k v] items IH]; intros m Hnd; simpl.
  - split; [intros ?; right; split; [apply not_elem_of_nil|done]|].
    intros [Hin|[_ ?]]; [by apply elem_of_nil in Hin|done].
  - simpl in Hnd. apply NoDup_cons in Hnd as [Hk Hnd].
    rewrite IH by done. rewrite elem_of_cons. split.
    + intros [Hin|[Hn Hlk]]; [by left; right|].
      destruct (decide (k = n)) as [->|Hne].
      * rewrite lookup_insert_eq in Hlk. left. left. congruence.
      * rewrite lookup_insert_ne in Hlk by done. right. split; [|done].
        rewrite not_elem_of_cons. by split.
    + intros [[Heq|Hin]|[Hn Hlk]].
      * inversion Heq; subst. right. split; [done|]. by rewrite lookup_insert_eq.
      * by left.
      * apply not_elem_of_cons in Hn as [Hne Hn]. right. split; [done|].
        by rewrite lookup_insert_ne.
Qed.

(** C2, as the code has it: an override is seeded into [dep_paths] exactly
    when its value is not [None] and its Path-Set exists on disk; the stages
    of the configuration, and with them the output-stage map, play no part. *)
Theorem seeding_tests_existence_only (cfg : FlowConfig) (dk : Disk)
    (dp : gmap string pyval) :
  NoDup (dependency_overrides cfg).*1 ->
  seed_dep_paths dk (dependency_overrides cfg) = Ret dp ->
  forall n p,
    dp !! n = Some p <->
    (n, p) ∈ dependency_overrides cfg /\ p <> PNone /\ p_req_exists dk p = Ret true.
Proof.
  intros Hnd Hseed n p. unfold seed_dep_paths in Hseed.
  destruct (seed_items dk (dependency_overrides cfg)) as [items| |] eqn:Hitems;
    try done. simpl in Hseed. inversion Hseed; subst; clear Hseed.
  destruct (seed_items_spec _ _ _ Hitems) as [Hin Hnd'].
  rewrite dict_update_lookup by auto. rewrite <- Hin. split; [|by left].
  intros [?|[_ Hlk]]; [done|]. by rewrite lookup_empty in Hlk.
Qed.

Lemma seeding_tests_existence_only_witness :
  exists dp,
    seed_dep_paths (Scenario.files ["x.txt"]) (dependency_overrides Scenario.cfgAx) = Ret dp /\
    (dp !! "x" = Some (PStr "x.txt") <->
     ("x", PStr "x.txt") ∈ dependency_overrides Scenario.cfgAx /\
     PStr "x.txt" <> PNone /\
     p_req_exists (Scenario.files ["x.txt"]) (PStr "x.txt") = Ret true).
Proof.
  eexists. split; [vm_compute; reflexivity|].
  apply (seeding_tests_existence_only Scenario.cfgAx (Scenario.files ["x.txt"])).
  - simpl. apply NoDup_singleton.
  - vm_compute. reflexivity.
Defined.

(** C2, as stated, fails: stage [A] declares ["x"], the override of ["x"]
    exists on disk, and ["x"] is seeded all the same. *)
Lemma seeding_ignores_providers :
  exists os dp,
    build_os_map (stages Scenario.cfgAx) ∅ = Ret os /\
    seed_dep_paths (Scenario.files ["x.txt"]) (dependency_overrides Scenario.cfgAx) = Ret dp /\
    os !! "x" = Some Scenario.A /\
    dp !! "x" = Some (PStr "x.txt") /\
    ~ (dp !! "x" = Some (PStr "x.txt") <->
       PStr "x.txt" <> PNone /\
       p_req_exists (Scenario.files ["x.txt"]) (PStr "x.txt") = Ret true /\
       os !! "x" = None).
Proof.
  eexists. eexists.
  split; [vm_compute; reflexivity|].
  split; [vm_compute; reflexivity|].
  split; [vm_compute; reflexivity|].
  split; [vm_compute; reflexivity|].
  intros [H _]. destruct H as (_ & _ & H); [vm_compute; reflexivity|].
  vm_compute in H. discriminate H.
Qed.

End Seeding.

(** * Properties of the planner *)

Section Planner.

Context (E : Env).

Implicit Types (st : State E) (provider : Stage.t) (take : StageIO.t).

Lemma init_rebuilds_fields dep st :
  os_map (init_rebuilds E dep st) = os_map st /\
  dep_paths (init_rebuilds E dep st) = dep_paths st /\
  stages_checked (init_rebuilds E dep st) = stages_checked st.
Proof. unfold init_rebuilds. by destruct (deps_rebuilds st !! dep). Qed.

(** The loop over the takes stops at the first required take that has no
    Path-Set after its own resolution. *)
Lemma resolve_takes_unreachable (rec : string -> M E unit) provider
    (pre post : list StageIO.t) take st st_pre st1 :
  resolve_takes E rec provider pre st = Ret (true, st_pre) ->
  rec (StageIO.name take) st_pre = Ret (tt, st1) ->
  truthy (py_get (dep_paths st1) (StageIO.name take)) = false ->
  StageIO.spec take = req ->
  resolve_takes E rec provider (pre ++ take :: post)%list st =
    Ret (false,
         sfprint E 0 (Unreachable (Stage.name provider) (StageIO.name take))
           (write_value_override E (Stage.name provider)
              (":" ++ StageIO.name take)
              (py_get (dep_paths st1) (StageIO.name take)) st1)).
Proof.
  intros Hpre Hrec Hfalsy Hreq. revert st Hpre.
  induction pre as [|t pre IH]; intros st Hpre.
  - simpl in Hpre. munfold. inversion Hpre; subst; clear Hpre.
    rewrite Hrec. rewrite Hfalsy, Hreq. reflexivity.
  - simpl in Hpre |- *. munfold.
    destruct (rec (StageIO.name t) st) as [[[] s1]| |]; try done.
    destruct (negb (truthy (py_get (dep_paths s1) (StageIO.name t)))
              && bool_decide (StageIO.spec t = req)); [done|].
    destruct (will_differ E _ t _ provider) as [wd| |]; try done.
    destruct wd.
    + destruct (flag_rebuild E t provider _) as [[[] s3]| |]; try done.
      by apply IH.
    + by apply IH.
Qed.

(** C9, as the code has it: when the takes of a provider before [take] are
    resolved without leaving the loop, and [take] is required and has no
    Path-Set after its own resolution, resolving the provider's artifact
    returns without raising; the provider adds nothing to [dep_paths], which
    is what the resolution of [take] left, so a name that was absent then is
    absent afterwards; [stages_checked], the output-stage map and
    [run_stages] are what the resolution of [take] left as well, and the
    console got the "unreachable" message at verbosity 0. *)
Theorem unreachable_provider_is_left_unresolved (cfg : FlowConfig) (fuel : nat)
    (dep : string) st provider (pre post : list StageIO.t) take st_pre st1 :
  os_map st !! dep = Some provider ->
  Stage.name provider ∉ stages_checked st ->
  Stage.takes provider = (pre ++ take :: post)%list ->
  resolve_takes E (_resolve_dependencies E cfg fuel) provider pre
    (init_rebuilds E dep st) = Ret (true, st_pre) ->
  _resolve_dependencies E cfg fuel (StageIO.name take) st_pre = Ret (tt, st1) ->
  truthy (py_get (dep_paths st1) (StageIO.name take)) = false ->
  StageIO.spec take = req ->
  exists st2,
    _resolve_dependencies E cfg (S fuel) dep st = Ret (tt, st2) /\
    dep_paths st2 = dep_paths st1 /\
    (forall o, o ∈ output_names provider ->
       dep_paths st1 !! o = None -> dep_paths st2 !! o = None) /\
    stages_checked st2 = stages_checked st1 /\
    os_map st2 = os_map st1 /\
    run_stages st2 = run_stages st1 /\
    console st2 =
      (console st1 ++ [(0, Unreachable (Stage.name provider) (StageIO.name take))])%list.
Proof.
  intros Hprov Hunchecked Htakes Hpre Hrec Hfalsy Hreq.
  destruct (init_rebuilds_fields dep st) as (Hos & Hdp & Hsc).
  eexists. split.
  - cbn [_resolve_dependencies]. unfold bind at 1. unfold modify at 1.
    unfold bind at 1. unfold get at 1.
    rewrite Hos, Hsc, Hprov.
    rewrite bool_decide_eq_false_2 by done. rewrite andb_false_r.
    rewrite bool_decide_eq_false_2 by done.
    unfold bind at 1. rewrite Htakes.
    rewrite (resolve_takes_unreachable _ _ _ _ _ _ _ _ Hpre Hrec Hfalsy Hreq).
    reflexivity.
  - by split_and!.
Qed.


(** After the entry is removed, the planner returns at once for that name. *)
Lemma resolve_without_provider (cfg : FlowConfig) (fuel : nat) (dep : string) st :
  os_map st !! dep = None ->
  _resolve_dependencies E cfg (S fuel) dep st = Ret (tt, init_rebuilds E dep st).
Proof.
  intros Hnone. destruct (init_rebuilds_fields dep st) as (Hos & _ & _).
  cbn [_resolve_dependencies]. munfold. rewrite Hos, Hnone.
  by destruct (truthy _ && _).
Qed.

(** C8: a required output that the dry run does not map ends the
    verification loop with [NameError] for the name [fatal], not with an error
    that names the stage and the output; so does the planner on a stage whose
    module maps one of its two required outputs. *)
Theorem missing_required_output_raises_name_error :
  (forall (cfg : FlowConfig) provider (n : string) st,
     verify_output E cfg provider [] (StageIO.mk n req) st
       = Raise (NameError "fatal")) /\
  _resolve_dependencies Scenario.demo Scenario.cfgQ 2 "x" Scenario.startQ
    = Raise (NameError "fatal").
Proof. split; [reflexivity|]. vm_compute. reflexivity. Qed.

End Planner.

Lemma unreachable_provider_is_left_unresolved_witness :
  exists st2,
    _resolve_dependencies Scenario.demo Scenario.cfgD 2 "v" Scenario.startD
      = Ret (tt, st2) /\
    dep_paths st2 !! "v" = None /\
    stages_checked st2 = ∅ /\
    console st2 = [(0, Unreachable "D" "w")].
Proof.
  destruct (unreachable_provider_is_left_unresolved Scenario.demo Scenario.cfgD 1
              "v" Scenario.startD Scenario.D [] [] (StageIO.mk "w" req)
              (init_rebuilds Scenario.demo "v" Scenario.startD)
              (init_rebuilds Scenario.demo "w"
                 (init_rebuilds Scenario.demo "v" Scenario.startD)))
    as (st2 & Hrun & Hdp & _ & Hsc & _ & _ & Hcon).
  - reflexivity.
  - vm_compute. discriminate.
  - reflexivity.
  - reflexivity.
  - reflexivity.
  - reflexivity.
  - reflexivity.
  - exists st2. split; [exact Hrun|]. rewrite Hdp, Hsc, Hcon. by split_and!.
Defined.

(** C9, as stated, fails: stage [A] has the required take ["src"], which
    nobody provides, and the override of its output ["x"] is on disk. The
    constructor returns, [A] is reported unreachable and stays unchecked, yet
    ["x"] is not absent: it has its seeded Path-Set, and building it returns
    [True]. *)
Lemma unreachable_provider_output_present :
  exists st : State Scenario.demo,
    Flow_init Scenario.demo Scenario.cfgAx "x" None (Scenario.files ["x.txt"]) 2
      = Ret st /\
    os_map st !! "x" = Some Scenario.A /\
    dep_paths st !! "src" = None /\
    console st = [(0, Unreachable "A" "src")] /\
    ("A" ∉ stages_checked st) /\
    dep_paths st !! "x" = Some (PStr "x.txt") /\
    ~ (forall o, o ∈ output_names Scenario.A -> dep_paths st !! o = None) /\
    _build_dep Scenario.demo Scenario.cfgAx 1 "x" st = Ret (true, st).
Proof.
  eexists.
  split; [vm_compute; reflexivity|].
  split; [vm_compute; reflexivity|].
  split; [vm_compute; reflexivity|].
  split; [vm_compute; reflexivity|].
  split; [vm_compute; discriminate|].
  split; [vm_compute; reflexivity|].
  split; [|vm_compute; reflexivity].
  intros H. specialize (H "x"). vm_compute in H.
  discriminate H. left.
Qed.

(** * Properties of the execution driver *)

Section Driver.

Context (E : Env).

Implicit Types (st : State E) (provider : Stage.t).

(** Once true, [any_dep_differ] stays true. *)
Lemma build_takes_flag_true (rec : string -> M E bool) provider
    (takes : list StageIO.t) st flag st' :
  build_takes E rec provider takes true st = Ret (flag, st') -> flag = true.
Proof.
  revert st. induction takes as [|t takes IH]; intros st H.
  - munfold. congruence.
  - munfold. destruct (rec (StageIO.name t) st) as [[built s1]| |]; try done.
    destruct built; simpl in H.
    + destruct (f4cache s1) as [fc|]; [|by eauto].
      destruct (dep_paths s1 !! StageIO.name t) as [p|]; try done.
      destruct (p_update_dep_statuses E (disk s1) p (Stage.name provider) fc)
        as [[d fc']| |]; try done.
      simpl in H. by eauto.
    + destruct (bool_decide (StageIO.spec t = req)); [done|by eauto].
Qed.

(** The loop over the produces writes nothing but the cache. *)
Lemma check_products_world (dep : string) (paths : pyval) provider
    (products : list StageIO.t) st st' :
  check_products E dep paths provider products st = Ret (tt, st') ->
  executed st' = executed st /\ console st' = console st /\ disk st' = disk st.
Proof.
  revert st. induction products as [|p products IH]; intros st H.
  - munfold. by inversion H.
  - munfold.
    destruct (bool_decide (StageIO.spec p = req)).
    + destruct (p_req_exists (disk st) paths) as [ex| |] eqn:Hex; try done.
      simpl in H. destruct ex; try done.
      destruct (dep_paths st !! StageIO.name p) as [pp|]; try done.
      destruct pp; try (by apply IH in H);
        (destruct (f4cache st); by apply IH in H).
    + destruct (dep_paths st !! StageIO.name p) as [pp|]; try done.
      destruct pp; try (by apply IH in H);
        (destruct (p_req_exists (disk st) paths) as [[]| |]; try done;
         destruct (f4cache st); by apply IH in H).
Qed.

(** The existence check raises nothing but its own exception. *)
Lemma p_req_exists_raise (dk : Disk) (r : pyval) (e : error) :
  p_req_exists dk r = Raise e -> exists r', e = Exception (MsgRequirementType r').
Proof.
  revert r e. fix IH 1. intros r e.
  destruct r as [ |s|l| |]; simpl; try (intros [= <-]; eauto).
  - by destruct (negb (path_exists dk s)).
  - induction l as [|x l IHl]; [done|].
    destruct (p_req_exists dk x) as [[]| |] eqn:Hx; try done.
    intros [= <-]. by apply (IH x).
Qed.

(** The exception of the loop over the produces carries the artifact the
    build was called for, and is raised when the Path-Set of that artifact is
    missing, whichever product the loop is at. *)
Lemma check_products_names_dep (dep : string) (paths : pyval) provider
    (products : list StageIO.t) st (d p : string) :
  check_products E dep paths provider products st
    = Raise (DependencyNotProducedException d p) ->
  d = dep /\ p = Stage.name provider /\
  p_req_exists (disk st) paths = Ret false.
Proof.
  revert st. induction products as [|o products IH]; intros st H.
  - munfold. done.
  - assert (Hnext : forall s, disk s = disk st ->
              check_products E dep paths provider products s
                = Raise (DependencyNotProducedException d p) ->
              d = dep /\ p = Stage.name provider /\
              p_req_exists (disk st) paths = Ret false).
    { intros s Hs Hc. apply IH in Hc. by rewrite Hs in Hc. }
    clear IH. munfold.
    destruct (p_req_exists (disk st) paths) as [ex|e|] eqn:Hex.
    + destruct ex, (bool_decide (StageIO.spec o = req)); simpl in H;
        try (by inversion H);
        (destruct (dep_paths st !! StageIO.name o) as [pp|]; [|done]);
        destruct pp; simpl in H;
        try (by eapply Hnext; [|exact H]);
        destruct (f4cache st); simpl in H; by (eapply Hnext; [|exact H]).
    + apply p_req_exists_raise in Hex as [r' ->].
      destruct (bool_decide (StageIO.spec o = req)); simpl in H; [done|].
      destruct (dep_paths st !! StageIO.name o) as [pp|]; [|done].
      destruct pp; simpl in H; try done; by (eapply Hnext; [|exact H]).
    + destruct (bool_decide (StageIO.spec o = req)); simpl in H; [done|].
      destruct (dep_paths st !! StageIO.name o) as [pp|]; [|done].
      destruct pp; simpl in H; try done; by (eapply Hnext; [|exact H]).
Qed.


(** C7: without a cache the planner's decision for a take that is present
    and on disk is [True]; and when the provider must run and [_build_dep]
    returns, the loop over the takes ended with [any_dep_differ] true and the
    provider's module was executed: the returned state is the one of
    [run_provider], the provider is the last executed stage, and no
    "skipping rebuild" was printed. *)
Theorem no_cache_never_short_circuits st :
  f4cache st = None ->
  (forall dep paths consumer, _dep_will_differ E st dep paths consumer = true) /\
  (forall take paths provider,
     paths <> PNone -> p_req_exists (disk st) paths = Ret true ->
     will_differ E st take paths provider = Ret true) /\
  (forall (cfg : FlowConfig) (fuel : nat) (dep : string) provider (ex b : bool) st2,
     truthy (py_get (dep_paths st) dep) = true ->
     os_map st !! dep = Some provider ->
     p_req_exists (disk st) (py_get (dep_paths st) dep) = Ret ex ->
     ex && negb (bool_decide (Stage.name provider ∈ run_stages st)) = false ->
     _build_dep E cfg (S fuel) dep st = Ret (b, st2) ->
     exists st1,
       build_takes E (_build_dep E cfg fuel) provider (Stage.takes provider)
         true st = Ret (true, st1) /\
       run_provider E cfg dep (py_get (dep_paths st) dep) provider st1
         = Ret (tt, st2) /\
       b = true /\
       executed st2 = (executed st1 ++ [Stage.name provider])%list /\
       console st2 = console st1).
Proof.
  intros Hnone. split_and!.
  - intros dep paths consumer. unfold _dep_will_differ. by rewrite Hnone.
  - intros take paths provider Hp Hex. unfold will_differ.
    destruct paths; try done; rewrite Hex; simpl;
      unfold _dep_will_differ; by rewrite Hnone.
  - intros cfg fuel dep provider ex b st2 Htruthy Hprov Hex Hmust Hrun.
    cbn [_build_dep] in Hrun. unfold bind at 1, get at 1 in Hrun.
    rewrite Htruthy in Hrun. cbn [negb] in Hrun. rewrite Hprov in Hrun.
    unfold bind at 1, lift at 1 in Hrun. rewrite Hex in Hrun. cbn [rbind] in Hrun.
    rewrite Hmust in Hrun. unfold initial_flag in Hrun. rewrite Hnone in Hrun.
    unfold bind at 1 in Hrun.
    destruct (build_takes E (_build_dep E cfg fuel) provider
                (Stage.takes provider) true st) as [[flag st1]| |] eqn:Htakes;
      try done.
    pose proof (build_takes_flag_true _ _ _ _ _ _ Htakes) as ->.
    exists st1. split; [done|].
    unfold bind at 1, get at 1 in Hrun. unfold bind at 1 in Hrun.
    cbn [negb] in Hrun. unfold ret at 1 in Hrun.
    unfold bind at 1 in Hrun.
    destruct (run_provider E cfg dep (py_get (dep_paths st) dep) provider st1)
      as [[[] s2]| |] eqn:Hprovider; try done.
    unfold ret in Hrun. inversion Hrun; subst; clear Hrun.
    split_and!; try done.
    + unfold run_provider in Hprovider. munfold.
      destruct (module_exec E _ _ _) as [dk| |]; try done. simpl in Hprovider.
      apply check_products_world in Hprovider as (-> & _ & _). reflexivity.
    + unfold run_provider in Hprovider. munfold.
      destruct (module_exec E _ _ _) as [dk| |]; try done. simpl in Hprovider.
      apply check_products_world in Hprovider as (_ & -> & _). reflexivity.
Qed.

End Driver.


Lemma no_cache_never_short_circuits_witness :
  exists st1 st2 : State Scenario.demo,
    _build_dep Scenario.demo Scenario.cfgAB 3 "y" (Scenario.flagged false)
      = Ret (true, st2) /\
    executed st2 = (executed st1 ++ ["B"])%list.
Proof.
  destruct (no_cache_never_short_circuits Scenario.demo (Scenario.flagged false)
              eq_refl) as (_ & _ & H).
  edestruct (H Scenario.cfgAB 2 "y" Scenario.B true) as (st1 & _ & _ & Hb & Hex & _).
  - vm_compute. reflexivity.
  - vm_compute. reflexivity.
  - vm_compute. reflexivity.
  - vm_compute. reflexivity.
  - vm_compute. reflexivity.
  - exists st1. eexists. split; [vm_compute; reflexivity|exact Hex].
Defined.

(** C1: stage [P] declares the required outputs ["x"] and ["y"], and its
    module writes the file of ["x"] only. Building ["x"] executes [P] and
    returns [True]: no exception is raised although the Path-Set of the
    required output ["y"] is not on disk. *)
Theorem missing_sibling_output_goes_unnoticed :
  exists st st' : State Scenario.demo,
    Flow_init Scenario.demo Scenario.cfgP "x" None (Scenario.files []) 2 = Ret st /\
    _build_dep Scenario.demo Scenario.cfgP 2 "x" st = Ret (true, st') /\
    executed st' = ["P"] /\
    os_map st' !! "y" = Some Scenario.P /\
    dep_paths st' !! "y" = Some (PStr "y.out") /\
    p_req_exists (disk st') (PStr "y.out") = Ret false.
Proof.
  eexists. eexists.
  split; [vm_compute; reflexivity|].
  split; [vm_compute; reflexivity|].
  split_and!; vm_compute; reflexivity.
Qed.

(** * Further properties of the Path-Set helpers *)

Section PathSetLeaves.

Context (E : Env).

(** Induction over Python values that descends into lists and mappings. *)
Lemma pyval_nested_ind (P : pyval -> Prop) :
  P PNone -> (forall s, P (PStr s)) ->
  (forall l, Forall P l -> P (PList l)) ->
  (forall d, Forall (fun kv => P (snd kv)) d -> P (PDict d)) ->
  (forall z, P (PInt z)) ->
  forall v, P v.
Proof.
  intros HN HS HL HD HZ. fix IH 1.
  intros [ |s|l|d|z]; [exact HN|apply HS| | |apply HZ].
  - apply HL. induction l as [|x l IHl]; constructor; [apply IH|exact IHl].
  - apply HD. induction d as [|[k x] d IHd]; constructor; [apply IH|exact IHd].
Qed.

(** A file counts as stale for a consumer when it is missing or its cache
    status is not ["same"]. *)
Lemma p_dep_differ_str (dk : Disk) (s consumer : string) (fc : Cache E) :
  p_dep_differ E dk (PStr s) consumer fc =
  negb (dk s) || negb (String.eqb (get_status E s consumer fc) "same").
Proof. simpl. unfold path_exists. by destruct (dk s). Qed.

Lemma p_dep_differ_leaves (dk : Disk) (consumer : string) (fc : Cache E) v :
  p_dep_differ E dk v consumer fc =
  existsb (fun s => negb (dk s)
                    || negb (String.eqb (get_status E s consumer fc) "same"))
    (path_leaves v).
Proof.
  induction v as [ |s|l IH|d IH|z] using pyval_nested_ind; try reflexivity.
  - rewrite p_dep_differ_str. simpl. by rewrite orb_false_r.
  - simpl. induction IH as [|x l Hx _ IHl]; [done|].
    rewrite existsb_app, <- Hx, <- IHl. reflexivity.
  - simpl. induction IH as [|[k x] d Hx _ IHd]; [done|].
    simpl in Hx. rewrite existsb_app, <- Hx, <- IHd. reflexivity.
Qed.

Lemma p_req_exists_false_leaf (dk : Disk) v :
  p_req_exists dk v = Ret false -> exists s, s ∈ path_leaves v /\ dk s = false.
Proof.
  induction v as [ |s|l IH|d IH|z] using pyval_nested_ind; try done.
  - simpl. unfold path_exists. destruct (dk s) eqn:Hs; [done|]. intros _.
    exists s. split; [by left|done].
  - simpl. induction IH as [|x l Hx _ IHl]; [done|].
    destruct (p_req_exists dk x) as [[]| |]; try done.
    + intros (s & Hs & Hd)%IHl. exists s. split; [|done].
      apply elem_of_app. by right.
    + intros _. destruct Hx as (s & Hs & Hd); [done|]. exists s. split; [|done].
      apply elem_of_app. by left.
Qed.

Lemma p_req_exists_true_leaves (dk : Disk) v :
  p_req_exists dk v = Ret true -> forall s, s ∈ path_leaves v -> dk s = true.
Proof.
  induction v as [ |s|l IH|d IH|z] using pyval_nested_ind; try done.
  - simpl. unfold path_exists. destruct (dk s) eqn:Hs; [|done].
    intros _ s' ->%list_elem_of_singleton. done.
  - simpl. induction IH as [|x l Hx _ IHl].
    + intros _ s Hs. by apply elem_of_nil in Hs.
    + destruct (p_req_exists dk x) as [[]| |]; try done.
      intros Hl s [Hs|Hs]%elem_of_app; [by apply Hx|by apply IHl].
Qed.

(** X1: whenever the existence check answers for a Path-Set, its answer is
    whether every path of the Path-Set is on disk; so the answer for an empty
    list is [True]. *)
Theorem p_req_exists_answer_is_all_paths_exist (dk : Disk) (v : pyval)
    (b : bool) :
  p_req_exists dk v = Ret b ->
  b = forallb dk (path_leaves v).
Proof.
  intros H. destruct b.
  - symmetry. apply forallb_forall. intros s Hs.
    apply (p_req_exists_true_leaves dk v H). by apply list_elem_of_In.
  - destruct (p_req_exists_false_leaf dk v H) as (s & Hs & Hd).
    destruct (forallb dk (path_leaves v)) eqn:Hall; [|done].
    rewrite forallb_forall in Hall.
    rewrite (Hall s) in Hd; [done|]. by apply list_elem_of_In.
Qed.

(** X2: the differ check answers whether some path of the Path-Set, through
    lists and mappings alike, is missing on disk or has a cache status other
    than ["same"] for the consumer; an empty list or mapping does not differ. *)
Theorem p_dep_differ_is_some_path_stale (dk : Disk) (consumer : string)
    (fc : Cache E) (v : pyval) :
  p_dep_differ E dk v consumer fc =
  existsb (fun s => negb (dk s)
                    || negb (String.eqb (get_status E s consumer fc) "same"))
    (path_leaves v).
Proof. apply p_dep_differ_leaves. Qed.

(** X3: a Path-Set that the existence check reports as not on disk differs,
    for every consumer and whatever the cache says. *)
Theorem missing_path_set_differs (dk : Disk) (consumer : string)
    (fc : Cache E) (v : pyval) :
  p_req_exists dk v = Ret false ->
  p_dep_differ E dk v consumer fc = true.
Proof.
  intros (s & Hs & Hd)%p_req_exists_false_leaf.
  rewrite p_dep_differ_leaves. apply existsb_exists. exists s.
  split; [by apply list_elem_of_In|]. by rewrite Hd.
Qed.

(** X4: the existence check stops at the first missing path: what follows
    it in the list is not looked at, not even a value on which the check
    would raise; put before the missing path, the same value makes the
    check raise. *)
Theorem p_req_exists_stops_at_first_missing (dk : Disk) (s : string)
    (before after : list pyval) (bad : pyval) :
  dk s = false ->
  p_req_exists dk (PList before) = Ret true ->
  p_req_exists dk (PList (before ++ PStr s :: after)%list) = Ret false /\
  (forall e, p_req_exists dk bad = Raise e ->
     p_req_exists dk (PList (before ++ bad :: PStr s :: after)%list) = Raise e).
Proof.
  intros Hs. simpl. induction before as [|x before IH]; intros Hb.
  - simpl. unfold path_exists. rewrite Hs. split; [done|].
    intros e ->. done.
  - simpl. destruct (p_req_exists dk x) as [[]| |]; try done. by apply IH.
Qed.

End PathSetLeaves.

Lemma p_req_exists_answer_is_all_paths_exist_witness :
  false = forallb (Scenario.files ["a"])
            (path_leaves (PList [PStr "a"; PList [PStr "b"]; PList []])).
Proof.
  apply (p_req_exists_answer_is_all_paths_exist (Scenario.files ["a"])
           (PList [PStr "a"; PList [PStr "b"]; PList []]) false).
  reflexivity.
Defined.

Lemma missing_path_set_differs_witness :
  p_dep_differ Scenario.demo (Scenario.files ["a"])
    (PList [PStr "a"; PStr "b"]) "B" [] = true.
Proof.
  apply (missing_path_set_differs Scenario.demo (Scenario.files ["a"]) "B" []).
  reflexivity.
Defined.

Lemma p_req_exists_stops_at_first_missing_witness :
  p_req_exists (Scenario.files ["a"]) (PList [PStr "a"; PStr "b"; PInt 7])
    = Ret false /\
  p_req_exists (Scenario.files ["a"]) (PList [PStr "a"; PInt 7; PStr "b"; PInt 7])
    = Raise (Exception (MsgRequirementType (PInt 7))).
Proof.
  destruct (p_req_exists_stops_at_first_missing (Scenario.files ["a"]) "b"
              [PStr "a"] [PInt 7] (PInt 7)) as [H1 H2];
    [reflexivity|reflexivity|].
  split; [exact H1|]. apply H2. reflexivity.
Defined.

(** * Properties of the module context and of the constructor *)

Section ContextAndConstruction.

Context (E : Env).

Lemma foldl_insert_by_key {A} (k : A -> string) (g : string -> option pyval)
    (l : list A) (acc : gmap string pyval) (n : string) :
  foldl (fun acc x => match g (k x) with
                      | Some v => <[k x := v]> acc
                      | None => acc
                      end) acc l !! n =
  if bool_decide (n ∈ map k l)
  then match g n with Some v => Some v | None => acc !! n end
  else acc !! n.
Proof.
  revert acc. induction l as [|x l IH]; intros acc.
  - cbn [foldl map]. rewrite bool_decide_eq_false_2; [done|]. apply not_elem_of_nil.
  - cbn [foldl map]. rewrite IH. destruct (decide (n = k x)) as [->|Hne].
    + rewrite (bool_decide_eq_true_2 (k x ∈ k x :: map k l)) by left.
      destruct (g (k x)) as [v|] eqn:Hg.
      * rewrite lookup_insert_eq. by destruct (bool_decide _).
      * by destruct (bool_decide _).
    + assert (Hiff : n ∈ k x :: map k l <-> n ∈ map k l).
      { rewrite elem_of_cons. split; [intros [?|?]; [congruence|done]|by right]. }
      rewrite (bool_decide_ext _ _ Hiff).
      destruct (g (k x)) as [v|]; [|done].
      rewrite lookup_insert_ne by done. done.
Qed.

Lemma foldl_pointwise {A B} (f f' : B -> A -> B) (l : list A) (b : B) :
  (forall b x, f b x = f' b x) -> foldl f b l = foldl f' b l.
Proof.
  intros Hf. revert b. induction l as [|x l IH]; intros b; simpl; [done|].
  by rewrite Hf, IH.
Qed.

(** X5: the context a module is run with holds, among the takes, exactly the
    declared takes whose resolved Path-Set is truthy; among the produces, for
    each declared output, the resolved Path-Set when it is truthy, else the
    configured override when that is truthy, else nothing. *)
Theorem config_mod_runctx_contents (stage : Stage.t) (values : Values E)
    (dp : gmap string pyval) (cp : list (string * pyval)) (n : string) :
  ctx_takes (_config_mod_runctx E stage values dp cp) !! n =
    (if bool_decide (n ∈ map StageIO.name (Stage.takes stage))
     then if truthy (py_get dp n) then Some (py_get dp n) else None
     else None) /\
  ctx_produces (_config_mod_runctx E stage values dp cp) !! n =
    (if bool_decide (n ∈ output_names stage)
     then if truthy (py_get dp n) then Some (py_get dp n)
          else if truthy (items_get cp n) then Some (items_get cp n)
          else None
     else None).
Proof.
  unfold _config_mod_runctx. simpl. split.
  - pose (g := fun n => if truthy (py_get dp n) then Some (py_get dp n) else None).
    rewrite (foldl_pointwise _
      (fun acc x => match g (StageIO.name x) with
                    | Some v => <[StageIO.name x := v]> acc
                    | None => acc
                    end)).
    + rewrite (foldl_insert_by_key StageIO.name g). rewrite lookup_empty.
      subst g. simpl. destruct (bool_decide _); [|done]. by destruct (truthy _).
    + intros b x. subst g. simpl. by destruct (truthy _).
  - pose (g := fun n => if truthy (py_get dp n) then Some (py_get dp n)
                        else if truthy (items_get cp n)
                        then Some (items_get cp n) else None).
    rewrite (foldl_pointwise _
      (fun acc x => match g (StageIO.name x) with
                    | Some v => <[StageIO.name x := v]> acc
                    | None => acc
                    end)).
    + rewrite (foldl_insert_by_key StageIO.name g). rewrite lookup_empty.
      subst g. simpl. unfold output_names. destruct (bool_decide _); [|done].
      destruct (truthy (py_get dp n)); [done|]. by destruct (truthy _).
    + intros b x. subst g. simpl. destruct (truthy (py_get dp _)); [done|].
      by destruct (truthy _).
Qed.

(** X6: when the output-stage map is built, its keys are exactly the output
    names that the stages declare, and each key is mapped to a stage of the
    list that declares it. *)
Theorem os_map_keys_are_declared_outputs (stages : list Stage.t)
    (m : gmap string Stage.t) :
  build_os_map stages ∅ = Ret m ->
  forall o,
    (is_Some (m !! o) <-> exists s, s ∈ stages /\ o ∈ output_names s) /\
    (forall s, m !! o = Some s -> s ∈ stages /\ o ∈ output_names s).
Proof.
  intros Hm o.
  assert (Hfrom : entries_from stages m).
  { destruct (build_os_map_raise stages stages ∅)
      as [(m' & Hm' & Hfrom)|(o' & t1 & t2 & Hr & _)];
      [done|apply entries_from_empty| |].
    - rewrite Hm in Hm'. by inversion Hm'; subst.
    - rewrite Hm in Hr. discriminate Hr. }
  destruct (build_os_map_ret _ _ _ Hm) as [_ Hall].
  split; [split|].
  - intros [s Hs]. exists s. by apply Hfrom.
  - intros (s & Hs & Ho). destruct (Hall s o Hs Ho) as (w & Hw & _). by exists w.
  - intros s Hs. by apply Hfrom.
Qed.

Lemma p_req_exists_answers (dk : Disk) (v : pyval) :
  p_req_exists dk v <> OutOfFuel.
Proof.
  induction v as [ |s|l IH|d IH|z] using pyval_nested_ind; try done.
  - simpl. by destruct (negb _).
  - simpl. induction IH as [|x l Hx _ IHl]; [done|].
    by destruct (p_req_exists dk x) as [[]| |].
Qed.

Lemma seed_test_answers (dk : Disk) (p : pyval) :
  (exists b, match p with PNone => Ret false | _ => p_req_exists dk p end = Ret b) \/
  (exists m, match p with PNone => Ret false | _ => p_req_exists dk p end
             = Raise (Exception m)).
Proof.
  assert (H : (exists b, p_req_exists dk p = Ret b) \/
              (exists m, p_req_exists dk p = Raise (Exception m))).
  { destruct (p_req_exists dk p) as [b|e|] eqn:Hp.
    - left. eauto.
    - right. apply p_req_exists_raise in Hp as [r' ->]. eauto.
    - by apply p_req_exists_answers in Hp. }
  destruct p; try exact H. left. eauto.
Qed.

Lemma seed_items_mapping (dk : Disk) (overrides : list (string * pyval))
    (n : string) (d : list (string * pyval)) :
  (n, PDict d) ∈ overrides ->
  exists m, seed_items dk overrides = Raise (Exception m).
Proof.
  induction overrides as [|[n' p'] ov IH]; intros Hin.
  - by apply elem_of_nil in Hin.
  - cbn [seed_items]. apply elem_of_cons in Hin as [Heq|Hin].
    + inversion Heq; subst. simpl. eauto.
    + destruct (IH Hin) as [m Hm]. rewrite Hm.
      destruct (seed_test_answers dk p') as [[b ->]|[m' ->]]; simpl; eauto.
Qed.

(** X7: an override whose value is a mapping makes the constructor raise an
    [Exception], for every target, cache, disk and recursion depth: either the
    duplicate-provider one or the one of the existence check, which takes
    strings and lists only. *)
Theorem mapping_override_aborts_construction (cfg : FlowConfig) (n : string)
    (d : list (string * pyval)) (target : string) (cache : option (Cache E))
    (dk : Disk) (fuel : nat) :
  (n, PDict d) ∈ dependency_overrides cfg ->
  exists m, Flow_init E cfg target cache dk fuel = Raise (Exception m).
Proof.
  intros Hin. unfold Flow_init.
  destruct (build_os_map_raise (stages cfg) (stages cfg) ∅)
    as [(m' & -> & _)|(o' & t1 & t2 & -> & _)];
    [done|apply entries_from_empty| |by eauto].
  simpl. destruct (seed_items_mapping dk _ _ _ Hin) as [m ->]. simpl. eauto.
Qed.

End ContextAndConstruction.

Lemma os_map_keys_are_declared_outputs_witness :
  exists m,
    build_os_map (stages Scenario.cfgAB) ∅ = Ret m /\
    (is_Some (m !! "y") <->
     exists s, s ∈ stages Scenario.cfgAB /\ "y" ∈ output_names s).
Proof.
  eexists. split; [vm_compute; reflexivity|].
  apply (os_map_keys_are_declared_outputs (stages Scenario.cfgAB)).
  vm_compute. reflexivity.
Defined.

Lemma mapping_override_aborts_construction_witness :
  exists m,
    Flow_init Scenario.demo
      (mkCfg [Scenario.A] [("src", PDict [("a", PStr "src.v")])])
      "x" None (Scenario.files ["src.v"]) 3
    = Raise (Exception m).
Proof.
  apply (mapping_override_aborts_construction Scenario.demo
           (mkCfg [Scenario.A] [("src", PDict [("a", PStr "src.v")])])
           "src" [("a", PStr "src.v")]).
  left.
Defined.

(** * What the planner changes and what it leaves alone *)

Section PlannerFrame.

Context (E : Env).

Implicit Types (st : State E) (provider : Stage.t).

Lemma planner_step_refl st : planner_step st st.
Proof. unfold planner_step. split_and!; try done. intros k n Hk. eauto. Qed.

Lemma planner_step_trans st1 st2 st3 :
  planner_step st1 st2 -> planner_step st2 st3 -> planner_step st1 st3.
Proof.
  intros (Hd & He & Hc & Hr & Hw & Ho & Hn & Hf & Hp)
         (Hd' & He' & Hc' & Hr' & Hw' & Ho' & Hn' & Hf' & Hp').
  unfold planner_step. split_and!; try congruence; try (by etrans); auto.
  intros k n Hk. destruct (Hn _ _ Hk) as (n1 & Hk1 & Hle1).
  destruct (Hn' _ _ Hk1) as (n2 & Hk2 & Hle2). exists n2. split; [done|lia].
Qed.

Lemma init_rebuilds_step (dep : string) st :
  planner_step st (init_rebuilds E dep st) /\
  is_Some (deps_rebuilds (init_rebuilds E dep st) !! dep).
Proof.
  unfold init_rebuilds. destruct (deps_rebuilds st !! dep) as [n|] eqn:Hdep.
  - split; [apply planner_step_refl|]. by rewrite Hdep.
  - split.
    + unfold planner_step. simpl. split_and!; try done.
      intros k n Hk. exists n. split; [|done].
      rewrite lookup_insert_ne; [done|]. intros ->. congruence.
    + simpl. rewrite lookup_insert_eq. eauto.
Qed.

Lemma write_value_override_step (stage key : string) (v : pyval) st :
  planner_step st (write_value_override E stage key v st).
Proof. unfold planner_step. simpl. split_and!; try done. intros k n Hk. eauto. Qed.

Lemma sfprint_step (verbosity : nat) (d : diag) st :
  planner_step st (sfprint E verbosity d st).
Proof.
  unfold planner_step. simpl. split_and!; try done.
  - intros k n Hk. eauto.
  - by apply prefix_app_r.
Qed.

Lemma flag_rebuild_step (take : StageIO.t) provider st st' :
  flag_rebuild E take provider st = Ret (tt, st') ->
  planner_step st st' /\ Stage.name provider ∈ run_stages st'.
Proof.
  unfold flag_rebuild. intros H.
  destruct (bool_decide (StageIO.name take ∈ skip_dep_warnings st)); simpl in H;
    destruct (deps_rebuilds st !! StageIO.name take) as [n|] eqn:Hn; try done;
    inversion H; subst; clear H; (split; [|simpl; set_solver]);
    unfold planner_step; simpl; (split_and!; try done; try set_solver;
      try (by apply prefix_app_r));
    intros k m Hk;
    (destruct (decide (StageIO.name take = k)) as [<-|Hne];
     [rewrite lookup_insert_eq; exists (S n); split; [done|];
      assert (m = n) by congruence; lia
     |rewrite lookup_insert_ne by done; eauto]).
Qed.

(** The loop over the takes, for any recursive call that is a planner step. *)
Lemma resolve_takes_step (rec : string -> M E unit) provider
    (takes : list StageIO.t) :
  (forall d s s', rec d s = Ret (tt, s') -> planner_step s s') ->
  forall st b st',
    resolve_takes E rec provider takes st = Ret (b, st') -> planner_step st st'.
Proof.
  intros Hrec. induction takes as [|t takes IH]; intros st b st' H.
  - munfold. inversion H; subst. apply planner_step_refl.
  - munfold.
    destruct (rec (StageIO.name t) st) as [[[] s1]| |] eqn:Hr; try done.
    apply Hrec in Hr.
    eapply planner_step_trans; [exact Hr|].
    eapply planner_step_trans;
      [apply (write_value_override_step (Stage.name provider)
                (":" ++ StageIO.name t)
                (py_get (dep_paths s1) (StageIO.name t)) s1)|].
    destruct (negb (truthy (py_get (dep_paths s1) (StageIO.name t)))
              && bool_decide (StageIO.spec t = req)).
    + inversion H; subst. apply sfprint_step.
    + destruct (will_differ E _ t _ provider) as [wd| |]; try done.
      simpl in H. destruct wd.
      * destruct (flag_rebuild E t provider _) as [[[] s3]| |] eqn:Hf; try done.
        apply flag_rebuild_step in Hf as [Hf _].
        eapply planner_step_trans; [exact Hf|]. eapply IH. exact H.
      * eapply IH. exact H.
Qed.

(** Registering the outputs changes the cache only, and creates none. *)
Lemma cache_outputs_frame (outputs : list (string * pyval)) st st' :
  cache_outputs E outputs st = Ret (tt, st') ->
  exists c, st' = set_f4cache E c st /\ (f4cache st = None -> c = None).
Proof.
  revert st. induction outputs as [|[k p] outputs IH]; intros st H.
  - munfold. inversion H; subst. exists (f4cache st'). by destruct st'.
  - assert (Hnext : forall c, (f4cache st = None -> c = None) ->
              cache_outputs E outputs (set_f4cache E c st) = Ret (tt, st') ->
              exists c, st' = set_f4cache E c st /\ (f4cache st = None -> c = None)).
    { intros c Hc Hn. apply IH in Hn as (c' & -> & Hc'). exists c'.
      split; [done|]. intros Hnone. apply Hc'. simpl. auto. }
    assert (Hsame : cache_outputs E outputs st = Ret (tt, st') ->
              exists c, st' = set_f4cache E c st /\ (f4cache st = None -> c = None)).
    { intros Hn. apply (Hnext (f4cache st)); [done|]. by destruct st. }
    clear IH. cbn [cache_outputs] in H.
    destruct p; try (by apply Hsame);
      (unfold bind at 1, get at 1, bind at 1, lift at 1 in H;
       destruct (p_req_exists (disk st) _) as [[]| |]; try done; simpl in H;
       [destruct (f4cache st) as [fc|] eqn:Hfc;
        [unfold bind, modify in H; eapply Hnext; [|exact H]; congruence
        |unfold bind, ret in H; by apply Hsame]
       |unfold bind, ret in H; by apply Hsame]).
Qed.

(** An output that has a Path-Set which is not on disk flags the provider;
    nothing else is touched. *)
Lemma flag_missing_outputs_frame provider (outputs : list (string * pyval))
    st st' :
  flag_missing_outputs E provider outputs st = Ret (tt, st') ->
  exists rs,
    st' = set_run_stages E rs st /\
    run_stages st ⊆ rs /\
    (forall k p, (k, p) ∈ outputs -> p <> PNone ->
       p_req_exists (disk st) p = Ret false -> Stage.name provider ∈ rs).
Proof.
  revert st. induction outputs as [|[k p] outputs IH]; intros st H.
  - munfold. inversion H; subst. exists (run_stages st'). split; [by destruct st'|].
    split; [done|]. intros k p Hin. by apply elem_of_nil in Hin.
  - assert (Hnext : forall rs, run_stages st ⊆ rs ->
              (p <> PNone -> p_req_exists (disk st) p = Ret false ->
               Stage.name provider ∈ rs) ->
              flag_missing_outputs E provider outputs (set_run_stages E rs st)
                = Ret (tt, st') ->
              exists rs,
                st' = set_run_stages E rs st /\
                run_stages st ⊆ rs /\
                (forall k0 p0, (k0, p0) ∈ (k, p) :: outputs -> p0 <> PNone ->
                   p_req_exists (disk st) p0 = Ret false ->
                   Stage.name provider ∈ rs)).
    { intros rs Hsub Hp Hn. apply IH in Hn as (rs' & -> & Hsub' & Hall).
      simpl in Hsub', Hall. exists rs'. split; [done|]. split; [set_solver|].
      intros k0 p0 [Heq|Hin]%elem_of_cons Hne Hex.
      - inversion Heq; subst. apply Hsub'. by apply Hp.
      - by eapply Hall. }
    assert (Hsame : (p <> PNone -> p_req_exists (disk st) p = Ret false -> False) ->
              flag_missing_outputs E provider outputs st = Ret (tt, st') ->
              exists rs,
                st' = set_run_stages E rs st /\
                run_stages st ⊆ rs /\
                (forall k0 p0, (k0, p0) ∈ (k, p) :: outputs -> p0 <> PNone ->
                   p_req_exists (disk st) p0 = Ret false ->
                   Stage.name provider ∈ rs)).
    { intros Hp Hn. apply (Hnext (run_stages st)); [done| |by destruct st].
      intros ? ?. by destruct Hp. }
    clear IH. cbn [flag_missing_outputs] in H.
    destruct p; try (by apply Hsame; [done|]);
      (unfold bind at 1, get at 1, bind at 1, lift at 1 in H;
       destruct (p_req_exists (disk st) _) as [[]| |] eqn:Hex; try done;
       simpl in H;
       [unfold bind, ret in H; by apply Hsame
       |unfold bind, modify in H; eapply Hnext; [| |exact H]; set_solver]).
Qed.

Lemma state_eta st :
  st = set_value_overrides E (value_overrides st) (set_os_map E (os_map st) st).
Proof. by destruct st. Qed.

Lemma set_os_map_eta om st :
  set_os_map E om st
  = set_value_overrides E (value_overrides st) (set_os_map E om st).
Proof. by destruct st. Qed.

Lemma write_value_override_eta (stage key : string) (v : pyval) st :
  write_value_override E stage key v st
  = set_value_overrides E
      (<[stage := <[key := v]> (default ∅ (value_overrides st !! stage))]>
         (value_overrides st))
      (set_os_map E (os_map st) st).
Proof. by destruct st. Qed.

(** One round of the verification loop, when it does not raise. *)
Lemma verify_output_frame (cfg : FlowConfig) provider
    (outputs : list (string * pyval)) (o : StageIO.t) st st' :
  verify_output E cfg provider outputs o st = Ret (tt, st') ->
  exists om vo,
    st' = set_value_overrides E vo (set_os_map E om st) /\
    ((items_has outputs (StageIO.name o) = true /\ om = os_map st) \/
     (items_has outputs (StageIO.name o) = false /\ StageIO.spec o <> req /\
      is_Some (os_map st !! StageIO.name o) /\
      om = delete (StageIO.name o) (os_map st))).
Proof.
  unfold verify_output. munfold.
  destruct (items_has outputs (StageIO.name o)) eqn:Hhas; simpl.
  - intros H. exists (os_map st).
    destruct (items_get outputs (StageIO.name o)); inversion H; subst; clear H;
      eexists; (split; [|by left]);
      first [apply state_eta | apply write_value_override_eta].
  - destruct (bool_decide (StageIO.spec o = req)
              || bool_decide (StageIO.spec o = demand)
                 && items_has (dependency_overrides cfg) (StageIO.name o))
      eqn:Hfatal; [done|].
    apply orb_false_iff in Hfatal as [Hreq%bool_decide_eq_false _].
    destruct (os_map st !! StageIO.name o) as [owner|] eqn:Hown; [|done].
    intros H. exists (delete (StageIO.name o) (os_map st)).
    destruct (items_get outputs (StageIO.name o)); inversion H; subst; clear H;
      eexists; (split; [|right; split_and!; eauto]);
      first [apply set_os_map_eta | reflexivity].
Qed.

(** The verification loop, when it does not raise: entries of the
    output-stage map are only removed, and only for declared outputs that the
    dry run did not map, none of which is required. *)
Lemma verify_outputs_frame (cfg : FlowConfig) provider
    (outputs : list (string * pyval)) (os : list StageIO.t) st st' :
  verify_outputs E cfg provider outputs os st = Ret (tt, st') ->
  exists om vo,
    st' = set_value_overrides E vo (set_os_map E om st) /\
    (forall k s, om !! k = Some s -> os_map st !! k = Some s) /\
    (forall o, o ∈ os -> items_has outputs (StageIO.name o) = false ->
       StageIO.spec o <> req /\ om !! StageIO.name o = None) /\
    (forall k s, os_map st !! k = Some s ->
       om !! k = Some s \/
       (items_has outputs k = false /\ k ∈ map StageIO.name os)).
Proof.
  revert st. induction os as [|o os IH]; intros st H.
  - munfold. inversion H; subst. exists (os_map st'), (value_overrides st').
    split; [by destruct st'|]. split_and!; [done| |by left].
    intros o Ho. by apply elem_of_nil in Ho.
  - cbn [verify_outputs] in H. unfold bind at 1 in H.
    destruct (verify_output E cfg provider outputs o st) as [[[] s1]| |] eqn:Hv;
      try done.
    apply verify_output_frame in Hv as (om1 & vo1 & -> & Hcase).
    apply IH in H as (om & vo & -> & Hsub & Hgone & Hkept). simpl in *.
    exists om, vo. split; [done|].
    assert (Hsub1 : forall k s, om1 !! k = Some s -> os_map st !! k = Some s).
    { intros k s Hk. destruct Hcase as [[_ ->]|(_ & _ & _ & ->)]; [done|].
      by apply lookup_delete_Some in Hk as [_ ?]. }
    split_and!.
    + intros k s Hk. by apply Hsub1, Hsub.
    + intros o' [->|Ho']%elem_of_cons Hhas; [|by apply Hgone].
      destruct Hcase as [[Hyes _]|(_ & Hreq & _ & ->)]; [congruence|].
      split; [done|]. destruct (om !! StageIO.name o) as [s|] eqn:Hom; [|done].
      apply Hsub in Hom. by rewrite lookup_delete_eq in Hom.
    + intros k s Hk.
      destruct Hcase as [[_ ->]|(Hno & _ & _ & ->)].
      * destruct (Hkept _ _ Hk) as [?|[? ?]]; [by left|].
        right. split; [done|]. by right.
      * destruct (decide (StageIO.name o = k)) as [<-|Hne].
        -- right. split; [done|]. left.
        -- destruct (Hkept k s) as [?|[? ?]].
           ++ by rewrite lookup_delete_ne.
           ++ by left.
           ++ right. split; [done|]. by right.
Qed.

(** What the planner has established when the dry run and the checks after
    it return: the provider is checked, [dep_paths] is updated with the
    mapping of the dry run, every required output is mapped, a mapped output
    that is not on disk has flagged the provider, and the state moved by a
    planner step. *)
Lemma resolve_outputs_post (cfg : FlowConfig) provider st st' :
  resolve_outputs E cfg provider st = Ret (tt, st') ->
  exists outputs,
    module_map E (Stage.module provider) (provider_ctx E cfg provider st)
      = Ret outputs /\
    dep_paths st' = dict_update (dep_paths st) outputs /\
    Stage.name provider ∈ stages_checked st' /\
    (forall o, o ∈ Stage.produces provider -> StageIO.spec o = req ->
       items_has outputs (StageIO.name o) = true) /\
    (forall k p, (k, p) ∈ outputs -> p <> PNone ->
       p_req_exists (disk st) p = Ret false ->
       Stage.name provider ∈ run_stages st') /\
    planner_step st st'.
Proof.
  unfold resolve_outputs. unfold bind at 1, get at 1, bind at 1, lift at 1.
  destruct (module_map E _ _) as [outputs| |]; try done. cbn [rbind].
  unfold bind at 1.
  destruct (cache_outputs E outputs st) as [[[] s1]| |] eqn:Hc; try done.
  apply cache_outputs_frame in Hc as (c & -> & Hnone).
  unfold bind at 1, modify at 1, bind at 1, modify at 1, bind at 1.
  destruct (flag_missing_outputs E provider outputs _) as [[[] s2]| |] eqn:Hf;
    try done.
  apply flag_missing_outputs_frame in Hf as (rs & -> & Hrs & Hflag).
  intros Hv. apply verify_outputs_frame in Hv as (om & vo & -> & Hsub & Hgone & _).
  simpl in *. exists outputs. split_and!.
  - done.
  - done.
  - clear. set_solver.
  - intros o Ho Hreq. destruct (items_has outputs (StageIO.name o)) eqn:Hhas;
      [done|]. by destruct (Hgone o Ho Hhas).
  - intros k p Hin Hne Hex. apply (Hflag k p Hin Hne Hex).
  - unfold planner_step. simpl. split_and!; try done.
    + clear. set_solver.
    + intros k n Hk. eauto.
Qed.

Lemma planner_step_counter (dep : string) st st' :
  planner_step st st' -> is_Some (deps_rebuilds st !! dep) ->
  is_Some (deps_rebuilds st' !! dep).
Proof.
  intros (_ & _ & _ & _ & _ & _ & Hn & _) [n Hdep].
  destruct (Hn _ _ Hdep) as (n' & ? & _). eauto.
Qed.

Lemma resolve_dependencies_step (cfg : FlowConfig) (fuel : nat) :
  forall (dep : string) st st',
    _resolve_dependencies E cfg fuel dep st = Ret (tt, st') ->
    planner_step st st' /\ is_Some (deps_rebuilds st' !! dep).
Proof.
  induction fuel as [|fuel IH]; intros dep st st' H; [done|].
  destruct (init_rebuilds_step dep st) as [Hinit Hkey].
  cut (planner_step (init_rebuilds E dep st) st').
  { intros Hstep. split; [by eapply planner_step_trans|].
    by eapply planner_step_counter. }
  cbn [_resolve_dependencies] in H.
  unfold bind at 1, modify at 1, bind at 1, get at 1 in H.
  set (s0 := init_rebuilds E dep st) in *. clearbody s0.
  destruct (truthy (py_get (dep_paths s0) dep)
            && bool_decide (os_map s0 !! dep = None)).
  { inversion H; subst. apply planner_step_refl. }
  destruct (os_map s0 !! dep) as [provider|].
  2: { inversion H; subst. apply planner_step_refl. }
  destruct (bool_decide (Stage.name provider ∈ stages_checked s0)).
  { inversion H; subst. apply planner_step_refl. }
  unfold bind at 1 in H.
  destruct (resolve_takes E _ provider _ s0) as [[completed s1]| |] eqn:Ht;
    try done.
  apply resolve_takes_step in Ht.
  2: { intros d s s' Hd. by apply IH in Hd as [? _]. }
  eapply planner_step_trans; [exact Ht|].
  destruct completed.
  - by apply resolve_outputs_post in H as (_ & _ & _ & _ & _ & _ & ?).
  - inversion H; subst. apply planner_step_refl.
Qed.

(** X8: a planning pass that returns has left the disk as it was, executed no
    module, created no cache, and only added to [stages_checked], to
    [run_stages] and to the console. *)
Theorem planner_runs_nothing (cfg : FlowConfig) (fuel : nat) (dep : string)
    st st' :
  _resolve_dependencies E cfg fuel dep st = Ret (tt, st') ->
  disk st' = disk st /\
  executed st' = executed st /\
  (f4cache st = None -> f4cache st' = None) /\
  stages_checked st ⊆ stages_checked st' /\
  run_stages st ⊆ run_stages st' /\
  console st `prefix_of` console st'.
Proof.
  intros H. apply resolve_dependencies_step in H as [H _].
  destruct H as (? & ? & ? & ? & ? & ? & ? & ? & ?). by split_and!.
Qed.

(** X9: a planning pass that returns leaves the artifact it was called for
    with a rebuild counter; counters that were there are still there and have
    not decreased; and the output-stage map has only lost entries. *)
Theorem planner_counters_and_providers (cfg : FlowConfig) (fuel : nat)
    (dep : string) st st' :
  _resolve_dependencies E cfg fuel dep st = Ret (tt, st') ->
  is_Some (deps_rebuilds st' !! dep) /\
  (forall k n, deps_rebuilds st !! k = Some n ->
     exists n', deps_rebuilds st' !! k = Some n' /\ n <= n') /\
  (forall k s, os_map st' !! k = Some s -> os_map st !! k = Some s).
Proof.
  intros H. apply resolve_dependencies_step in H as [H Hkey].
  destruct H as (? & ? & ? & ? & ? & ? & ? & ? & ?). by split_and!.
Qed.

(** X10: when the dry run of a provider and the checks after it return, the
    provider is in [stages_checked], [dep_paths] is the old table updated with
    the mapping of the dry run, every required output of the provider is
    mapped, and a mapped output whose Path-Set is not on disk has put the
    provider into [run_stages]. *)
Theorem dry_run_is_recorded (cfg : FlowConfig) provider st st' :
  resolve_outputs E cfg provider st = Ret (tt, st') ->
  exists outputs,
    module_map E (Stage.module provider) (provider_ctx E cfg provider st)
      = Ret outputs /\
    dep_paths st' = dict_update (dep_paths st) outputs /\
    Stage.name provider ∈ stages_checked st' /\
    (forall o, o ∈ Stage.produces provider -> StageIO.spec o = req ->
       items_has outputs (StageIO.name o) = true) /\
    (forall k p, (k, p) ∈ outputs -> p <> PNone ->
       p_req_exists (disk st) p = Ret false ->
       Stage.name provider ∈ run_stages st').
Proof.
  intros H. apply resolve_outputs_post in H as (outputs & ? & ? & ? & ? & ? & _).
  exists outputs. by split_and!.
Qed.

(** X11: when the verification loop returns, entries of the output-stage map
    were only removed; each declared output that the dry run did not map is
    not required and has no provider any more; and an entry that is gone
    belonged to such an output. *)
Theorem verification_only_drops_unmapped_outputs (cfg : FlowConfig) provider
    (outputs : list (string * pyval)) st st' :
  verify_outputs E cfg provider outputs (Stage.produces provider) st
    = Ret (tt, st') ->
  (forall k s, os_map st' !! k = Some s -> os_map st !! k = Some s) /\
  (forall o, o ∈ Stage.produces provider ->
     items_has outputs (StageIO.name o) = false ->
     StageIO.spec o <> req /\ os_map st' !! StageIO.name o = None) /\
  (forall k s, os_map st !! k = Some s ->
     os_map st' !! k = Some s \/
     (items_has outputs k = false /\ k ∈ output_names provider)) /\
  dep_paths st' = dep_paths st /\ run_stages st' = run_stages st.
Proof.
  intros H. apply verify_outputs_frame in H as (om & vo & -> & ? & ? & ?).
  simpl. by split_and!.
Qed.


End PlannerFrame.

Lemma planner_runs_nothing_witness :
  exists st',
    _resolve_dependencies Scenario.demo Scenario.cfgAB 4 "y" Scenario.startAB
      = Ret (tt, st') /\
    disk st' = disk Scenario.startAB /\
    executed st' = [] /\
    run_stages Scenario.startAB ⊆ run_stages st'.
Proof.
  assert (H : exists st',
             _resolve_dependencies Scenario.demo Scenario.cfgAB 4 "y"
               Scenario.startAB = Ret (tt, st'))
    by (eexists; vm_compute; reflexivity).
  destruct H as [st' H]. exists st'. split; [exact H|].
  destruct (planner_runs_nothing Scenario.demo Scenario.cfgAB 4 "y"
              Scenario.startAB st' H) as (Hd & He & _ & _ & Hr & _).
  split_and!; [exact Hd|exact He|exact Hr].
Defined.

Lemma planner_counters_and_providers_witness :
  exists st',
    _resolve_dependencies Scenario.demo Scenario.cfgAB 4 "y" Scenario.startAB
      = Ret (tt, st') /\
    is_Some (deps_rebuilds st' !! "y").
Proof.
  assert (H : exists st',
             _resolve_dependencies Scenario.demo Scenario.cfgAB 4 "y"
               Scenario.startAB = Ret (tt, st'))
    by (eexists; vm_compute; reflexivity).
  destruct H as [st' H]. exists st'. split; [exact H|].
  exact (proj1 (planner_counters_and_providers Scenario.demo Scenario.cfgAB 4
                  "y" Scenario.startAB st' H)).
Defined.

Lemma dry_run_is_recorded_witness :
  exists st' outputs,
    resolve_outputs Scenario.demo Scenario.cfgAB Scenario.A Scenario.startAB
      = Ret (tt, st') /\
    dep_paths st' = dict_update (dep_paths Scenario.startAB) outputs /\
    "A" ∈ run_stages st'.
Proof.
  assert (H : exists st',
             resolve_outputs Scenario.demo Scenario.cfgAB Scenario.A
               Scenario.startAB = Ret (tt, st'))
    by (eexists; vm_compute; reflexivity).
  destruct H as [st' H]. exists st'.
  destruct (dry_run_is_recorded Scenario.demo Scenario.cfgAB Scenario.A
              Scenario.startAB st' H) as (outputs & Hm & Hd & _ & _ & Hflag).
  exists outputs. split_and!; [exact H|exact Hd|].
  apply (Hflag "x" (PStr "x.out")).
  - vm_compute in Hm. inversion Hm; subst. left.
  - discriminate.
  - reflexivity.
Defined.

Lemma verification_only_drops_unmapped_outputs_witness :
  exists st',
    verify_outputs Scenario.demo (mkCfg [Scenario.S2] []) Scenario.S2
      [("x", PStr "x.out")] (Stage.produces Scenario.S2) Scenario.startS2
      = Ret (tt, st') /\
    os_map st' !! "z" = None.
Proof.
  assert (H : exists st',
             verify_outputs Scenario.demo (mkCfg [Scenario.S2] []) Scenario.S2
               [("x", PStr "x.out")] (Stage.produces Scenario.S2)
               Scenario.startS2 = Ret (tt, st'))
    by (eexists; vm_compute; reflexivity).
  destruct H as [st' H]. exists st'. split; [exact H|].
  destruct (verification_only_drops_unmapped_outputs Scenario.demo _ _ _ _ _ H)
    as (_ & Hgone & _).
  apply (Hgone (StageIO.mk "z" maybe)).
  - right. left.
  - reflexivity.
Defined.


(** * What the execution driver changes and what it leaves alone *)

Section DriverFrame.

Context (E : Env).

Implicit Types (st : State E) (provider : Stage.t).

Lemma driver_step_refl st : driver_step st st.
Proof. unfold driver_step. by split_and!. Qed.

Lemma driver_step_trans st1 st2 st3 :
  driver_step st1 st2 -> driver_step st2 st3 -> driver_step st1 st3.
Proof.
  intros (Ho & Hd & Hn & Hc & Hv & Hr & Hf & He & Hp)
         (Ho' & Hd' & Hn' & Hc' & Hv' & Hr' & Hf' & He' & Hp').
  unfold driver_step. split_and!; try congruence; try (by etrans); auto.
Qed.

Lemma driver_step_sfprint (verbosity : nat) (d : diag) st :
  driver_step st (sfprint E verbosity d st).
Proof.
  unfold driver_step. simpl. split_and!; try done. by apply prefix_app_r.
Qed.

Lemma driver_step_cache (c : option (Cache E)) st :
  (f4cache st = None -> c = None) -> driver_step st (set_f4cache E c st).
Proof. intros Hc. unfold driver_step. simpl. by split_and!. Qed.

(** The loop over the produces changes the cache only, creates none, and
    passes a required product only when the Path-Set of the built artifact
    exists. *)
Lemma check_products_frame (dep : string) (paths : pyval) provider
    (products : list StageIO.t) st st' :
  check_products E dep paths provider products st = Ret (tt, st') ->
  (exists c, st' = set_f4cache E c st /\ (f4cache st = None -> c = None)) /\
  ((exists o, o ∈ products /\ StageIO.spec o = req) ->
   p_req_exists (disk st) paths = Ret true).
Proof.
  revert st. induction products as [|o products IH]; intros st H.
  - munfold. inversion H; subst. split.
    + exists (f4cache st'). by destruct st'.
    + intros (o & Ho & _). by apply elem_of_nil in Ho.
  - assert (Hnext : forall c, (f4cache st = None -> c = None) ->
              (StageIO.spec o = req -> p_req_exists (disk st) paths = Ret true) ->
              check_products E dep paths provider products (set_f4cache E c st)
                = Ret (tt, st') ->
              (exists c, st' = set_f4cache E c st /\
                         (f4cache st = None -> c = None)) /\
              ((exists o', o' ∈ o :: products /\ StageIO.spec o' = req) ->
               p_req_exists (disk st) paths = Ret true)).
    { intros c Hc Hreq Hn. apply IH in Hn as [(c' & -> & Hc') Hex]. split.
      - exists c'. split; [done|]. intros Hnone. apply Hc'. simpl. auto.
      - intros (o' & [->|Ho']%elem_of_cons & Hspec); [by apply Hreq|].
        apply Hex. eauto. }
    assert (Hsame : (StageIO.spec o = req ->
                     p_req_exists (disk st) paths = Ret true) ->
              check_products E dep paths provider products st = Ret (tt, st') ->
              (exists c, st' = set_f4cache E c st /\
                         (f4cache st = None -> c = None)) /\
              ((exists o', o' ∈ o :: products /\ StageIO.spec o' = req) ->
               p_req_exists (disk st) paths = Ret true)).
    { intros Hreq Hn. apply (Hnext (f4cache st)); [done|done|]. by destruct st. }
    clear IH. munfold.
    destruct (bool_decide (StageIO.spec o = req)) eqn:Hspec.
    + destruct (p_req_exists (disk st) paths) as [[]| |] eqn:Hex; try done.
      simpl in H.
      destruct (dep_paths st !! StageIO.name o) as [pp|]; [|done].
      destruct pp; simpl in H; try (by apply Hsame);
        (destruct (f4cache st) as [fc|] eqn:Hfc; simpl in H;
         [eapply Hnext; [| |exact H]; [congruence|done]|by apply Hsame]).
    + apply bool_decide_eq_false in Hspec.
      destruct (dep_paths st !! StageIO.name o) as [pp|]; [|done].
      destruct pp; simpl in H; try (by apply Hsame);
        (destruct (p_req_exists (disk st) paths) as [[]| |] eqn:Hex; try done;
         simpl in H;
         [destruct (f4cache st) as [fc|] eqn:Hfc; simpl in H;
          [eapply Hnext; [| |exact H]; [congruence|done]|by apply Hsame]
         |by apply Hsame]).
Qed.

(** What a run of a provider's module leaves, when it returns. *)
Lemma run_provider_post (cfg : FlowConfig) (dep : string) (paths : pyval)
    provider st st' :
  run_provider E cfg dep paths provider st = Ret (tt, st') ->
  exists dk c,
    module_exec E (Stage.module provider) (provider_ctx E cfg provider st)
      (disk st) = Ret dk /\
    st' = set_f4cache E c
            (set_run_stages E (run_stages st ∖ {[Stage.name provider]})
               (log_executed E (Stage.name provider) (set_disk E dk st))) /\
    (f4cache st = None -> c = None) /\
    ((exists o, o ∈ Stage.produces provider /\ StageIO.spec o = req) ->
     p_req_exists dk paths = Ret true).
Proof.
  unfold run_provider. unfold bind at 1, get at 1, bind at 1, lift at 1.
  destruct (module_exec E _ _ _) as [dk| |]; try done. cbn [rbind].
  unfold bind at 1, modify at 1, bind at 1, modify at 1.
  intros H. apply check_products_frame in H as [(c & -> & Hc) Hreq].
  exists dk, c. by split_and!.
Qed.

Lemma run_provider_step (cfg : FlowConfig) (dep : string) (paths : pyval)
    provider st st' :
  run_provider E cfg dep paths provider st = Ret (tt, st') -> driver_step st st'.
Proof.
  intros H. apply run_provider_post in H as (dk & c & _ & -> & Hc & _).
  unfold driver_step. simpl. split_and!; try done.
  - by apply subseteq_difference_l.
  - by apply prefix_app_r.
Qed.

(** The loop over the takes, for any recursive call that is a driver step. *)
Lemma build_takes_step (rec : string -> M E bool) provider
    (takes : list StageIO.t) :
  (forall d s b s', rec d s = Ret (b, s') -> driver_step s s') ->
  forall (flag : bool) st b st',
    build_takes E rec provider takes flag st = Ret (b, st') ->
    driver_step st st'.
Proof.
  intros Hrec. induction takes as [|t takes IH]; intros flag st b st' H.
  - munfold. inversion H; subst. apply driver_step_refl.
  - munfold.
    destruct (rec (StageIO.name t) st) as [[built s1]| |] eqn:Hr; try done.
    apply Hrec in Hr. eapply driver_step_trans; [exact Hr|].
    destruct built; simpl in H.
    + destruct (f4cache s1) as [fc|] eqn:Hfc; [|by eapply IH].
      destruct (dep_paths s1 !! StageIO.name t) as [p|]; [|done].
      destruct (p_update_dep_statuses E (disk s1) p (Stage.name provider) fc)
        as [[d fc']| |]; try done.
      simpl in H.
      eapply driver_step_trans;
        [apply (driver_step_cache (Some fc') s1); congruence|].
      eapply IH. exact H.
    + destruct (bool_decide (StageIO.spec t = req)); [done|]. by eapply IH.
Qed.

Lemma build_dep_unresolved (cfg : FlowConfig) (fuel : nat) (dep : string) st :
  truthy (py_get (dep_paths st) dep) = false ->
  _build_dep E cfg (S fuel) dep st = Ret (false, sfprint E 2 (Unresolved dep) st).
Proof.
  intros Hfalsy. cbn [_build_dep]. unfold bind at 1, get at 1.
  by rewrite Hfalsy.
Qed.

(** The cases of a call of [_build_dep] that returns. *)
Lemma build_dep_cases (cfg : FlowConfig) (fuel : nat) (dep : string) st
    (b : bool) st' :
  _build_dep E cfg (S fuel) dep st = Ret (b, st') ->
  (b = false /\ truthy (py_get (dep_paths st) dep) = false /\
   st' = sfprint E 2 (Unresolved dep) st) \/
  (b = true /\ truthy (py_get (dep_paths st) dep) = true /\
   ((st' = st /\
     p_req_exists (disk st) (py_get (dep_paths st) dep) = Ret true /\
     match os_map st !! dep with
     | Some p => bool_decide (Stage.name p ∈ run_stages st)
     | None => false
     end = false) \/
    exists provider flag st1,
      os_map st !! dep = Some provider /\
      build_takes E (_build_dep E cfg fuel) provider (Stage.takes provider)
        (initial_flag E st) st = Ret (flag, st1) /\
      ((flag = false /\ st' = sfprint E 2 (SkippingRebuild dep) st1 /\
        p_req_exists (disk st1) (py_get (dep_paths st) dep) = Ret true) \/
       run_provider E cfg dep (py_get (dep_paths st) dep) provider st1
         = Ret (tt, st')))).
Proof.
  intros H. cbn [_build_dep] in H. unfold bind at 1, get at 1 in H.
  destruct (truthy (py_get (dep_paths st) dep)) eqn:Htruthy; cbn [negb] in H.
  2: { left. munfold. by inversion H. }
  right. unfold bind at 1, lift at 1 in H.
  destruct (p_req_exists (disk st) (py_get (dep_paths st) dep)) as [ex| |] eqn:Hex;
    try done.
  cbn [rbind] in H.
  destruct (ex && negb _) eqn:Hnow.
  { unfold ret in H. inversion H; subst.
    apply andb_true_iff in Hnow as [-> Hrun%negb_true_iff].
    split_and!; [done|done|by left]. }
  destruct (os_map st !! dep) as [provider|] eqn:Hprov; [|done].
  unfold bind at 1 in H.
  destruct (build_takes E _ provider _ _ st) as [[flag st1]| |] eqn:Htakes;
    try done.
  unfold bind at 1, get at 1, bind at 1 in H.
  destruct flag; cbn [negb] in H.
  - unfold ret at 1 in H. unfold bind at 1 in H.
    destruct (run_provider E cfg dep _ provider st1) as [[[] s2]| |] eqn:Hrun;
      try done.
    unfold ret in H. inversion H; subst.
    split_and!; [done|done|]. right. exists provider, true, st1.
    split_and!; [done|done|by right].
  - unfold lift at 1 in H.
    destruct (p_req_exists (disk st1) _) as [[]| |] eqn:Hex1; try done;
      cbn [rbind] in H.
    + unfold bind, modify, ret in H. inversion H; subst.
      split_and!; [done|done|]. right. exists provider, false, st1.
      split_and!; [done|done|]. left. by split_and!.
    + unfold bind at 1 in H.
      destruct (run_provider E cfg dep _ provider st1) as [[[] s2]| |] eqn:Hrun;
        try done.
      unfold ret in H. inversion H; subst.
      split_and!; [done|done|]. right. exists provider, false, st1.
      split_and!; [done|done|by right].
Qed.

Lemma build_dep_step (cfg : FlowConfig) (fuel : nat) :
  forall (dep : string) st (b : bool) st',
    _build_dep E cfg fuel dep st = Ret (b, st') -> driver_step st st'.
Proof.
  induction fuel as [|fuel IH]; intros dep st b st' H; [done|].
  apply build_dep_cases in H
    as [(_ & _ & ->)
       |(_ & _ & [(-> & _ & _)|(provider & flag & st1 & _ & Ht & Hend)])].
  - apply driver_step_sfprint.
  - apply driver_step_refl.
  - apply build_takes_step in Ht; [|exact IH].
    eapply driver_step_trans; [exact Ht|].
    destruct Hend as [(_ & -> & _)|Hrun].
    + apply driver_step_sfprint.
    + by eapply run_provider_step.
Qed.

(** X13: a build that returns has not changed the output-stage map,
    [dep_paths], the rebuild counters or [stages_checked]; it has only removed
    stages from [run_stages], only added to the list of executed stages and
    to the console, and has created no cache. *)
Theorem driver_keeps_the_plan (cfg : FlowConfig) (fuel : nat) (dep : string)
    st (b : bool) st' :
  _build_dep E cfg fuel dep st = Ret (b, st') ->
  os_map st' = os_map st /\
  dep_paths st' = dep_paths st /\
  deps_rebuilds st' = deps_rebuilds st /\
  stages_checked st' = stages_checked st /\
  run_stages st' ⊆ run_stages st /\
  (f4cache st = None -> f4cache st' = None) /\
  executed st `prefix_of` executed st' /\
  console st `prefix_of` console st'.
Proof.
  intros H. apply build_dep_step in H.
  destruct H as (? & ? & ? & ? & ? & ? & ? & ? & ?). by split_and!.
Qed.

(** X14: a build returns [False] exactly for an artifact without a truthy
    Path-Set, and then it has only printed the "unresolved" message: nothing
    was built, executed or recorded. *)
Theorem build_fails_only_when_unresolved (cfg : FlowConfig) (fuel : nat)
    (dep : string) st st' :
  _build_dep E cfg (S fuel) dep st = Ret (false, st') <->
  truthy (py_get (dep_paths st) dep) = false /\
  st' = sfprint E 2 (Unresolved dep) st.
Proof.
  split.
  - intros H. apply build_dep_cases in H as [(_ & ? & ?)|(? & _)]; [done|done].
  - intros [Hfalsy ->]. by apply build_dep_unresolved.
Qed.

(** X15: after the module of a provider with a required output has run and
    the checks after it have passed, the artifact it was run for is up to
    date: building it again returns [True] at once and changes nothing. *)
Theorem rebuilt_artifact_is_up_to_date (cfg : FlowConfig) (dep : string)
    provider st st' (fuel : nat) :
  os_map st !! dep = Some provider ->
  truthy (py_get (dep_paths st) dep) = true ->
  (exists o, o ∈ Stage.produces provider /\ StageIO.spec o = req) ->
  run_provider E cfg dep (py_get (dep_paths st) dep) provider st = Ret (tt, st') ->
  _build_dep E cfg (S fuel) dep st' = Ret (true, st').
Proof.
  intros Hprov Htruthy Hreq Hrun.
  apply run_provider_post in Hrun as (dk & c & _ & -> & _ & Hex).
  specialize (Hex Hreq).
  cbn [_build_dep]. unfold bind at 1, get at 1. simpl.
  rewrite Htruthy. cbn [negb]. rewrite Hprov.
  unfold bind at 1, lift at 1. rewrite Hex. cbn [rbind].
  rewrite bool_decide_eq_false_2; [reflexivity|].
  rewrite elem_of_difference. intros [_ Hn]. apply Hn. by apply elem_of_singleton.
Qed.

(** X16: executing a flow whose target has no entry in [dep_paths] raises
    [KeyError] for the target, with or without a cache: the failed build is
    not looked at, and the lookup that follows it fails. *)
Theorem execute_unresolved_target_raises_key_error (cfg : FlowConfig)
    (target : string) (fuel : nat) st :
  dep_paths st !! target = None ->
  execute E cfg target (S fuel) st = Raise (KeyError target).
Proof.
  intros Hnone. unfold execute. unfold bind at 1.
  rewrite build_dep_unresolved by (unfold py_get; by rewrite Hnone).
  unfold bind at 1, get at 1. simpl.
  destruct (f4cache st).
  - unfold bind at 1. by rewrite Hnone.
  - unfold bind at 1, ret at 1, bind at 1, get at 1. simpl. by rewrite Hnone.
Qed.

(** X17: the line of the reporter agrees with the driver. An artifact
    reported [[O]] or [[N]] is built by returning [True] at once, with the
    state unchanged; one reported [[U]] is not built: the build returns
    [False]; one reported [[R]] or [[S]] is not passed over: its provider is
    flagged, and a build that returns has gone through the provider's takes. *)
Theorem reporter_agrees_with_driver (cfg : FlowConfig) (fuel : nat)
    (dep : string) st (mark : status_mark) (src : dep_source) :
  resolved_line E st dep = Ret (mark, src) ->
  ((mark = MarkO \/ mark = MarkN) ->
   _build_dep E cfg (S fuel) dep st = Ret (true, st)) /\
  (mark = MarkU ->
   _build_dep E cfg (S fuel) dep st = Ret (false, sfprint E 2 (Unresolved dep) st)) /\
  ((mark = MarkR \/ mark = MarkS) ->
   exists provider,
     os_map st !! dep = Some provider /\
     Stage.name provider ∈ run_stages st /\
     forall b st',
       _build_dep E cfg (S fuel) dep st = Ret (b, st') ->
       exists flag st1,
         build_takes E (_build_dep E cfg fuel) provider (Stage.takes provider)
           (initial_flag E st) st = Ret (flag, st1)).
Proof.
  unfold resolved_line. intros H.
  destruct (truthy (py_get (dep_paths st) dep)) eqn:Htruthy.
  - destruct (p_req_exists (disk st) (py_get (dep_paths st) dep)) as [ex| |] eqn:Hex;
      try done.
    cbn [rbind] in H.
    assert (Hnow : forall run, ex = true -> run = false ->
              (match os_map st !! dep with
               | Some p => bool_decide (Stage.name p ∈ run_stages st)
               | None => false
               end) = run ->
              _build_dep E cfg (S fuel) dep st = Ret (true, st)).
    { intros run -> -> Hrun. cbn [_build_dep]. unfold bind at 1, get at 1.
      rewrite Htruthy. cbn [negb]. unfold bind at 1, lift at 1.
      rewrite Hex. cbn [rbind]. by rewrite Hrun. }
    destruct (os_map st !! dep) as [provider|] eqn:Hprov.
    + destruct (bool_decide (Stage.name provider ∈ run_stages st)) eqn:Hrun.
      * inversion H; subst. split_and!.
        -- intros [?|?]; by destruct ex.
        -- by destruct ex.
        -- intros _. exists provider. apply bool_decide_eq_true in Hrun.
           split_and!; [done|done|]. intros b st' Hb.
           apply build_dep_cases in Hb
             as [(_ & ? & _)
                |(_ & _ & [(_ & _ & Hnot)|(p & flag & st1 & Hp & Ht & _)])].
           ++ congruence.
           ++ rewrite Hprov in Hnot. by apply bool_decide_eq_false in Hnot.
           ++ exists flag, st1. congruence.
      * destruct ex.
        -- destruct (deps_rebuilds st !! dep) as [n|]; [|done].
           inversion H; subst. split_and!.
           ++ intros _. by apply (Hnow false).
           ++ by destruct (0 <? n)%nat.
           ++ intros [?|?]; by destruct (0 <? n)%nat.
        -- inversion H; subst. split_and!; [by intros [?|?]|done|by intros [?|?]].
    + destruct ex.
      * destruct (deps_rebuilds st !! dep) as [n|]; [|done].
        inversion H; subst. split_and!.
        -- intros _. by apply (Hnow false).
        -- by destruct (0 <? n)%nat.
        -- intros [?|?]; by destruct (0 <? n)%nat.
      * inversion H; subst. split_and!; [by intros [?|?]|done|by intros [?|?]].
  - destruct (os_map st !! dep) as [provider|] eqn:Hprov; inversion H; subst;
      (split_and!; [by intros [?|?]| |by intros [?|?]]); [|done].
    intros _. by apply build_dep_unresolved.
Qed.

End DriverFrame.

Lemma driver_keeps_the_plan_witness :
  exists (b : bool) (st' : State Scenario.demo),
    _build_dep Scenario.demo Scenario.cfgAB 3 "y" (Scenario.flagged false)
      = Ret (b, st') /\
    dep_paths st' = dep_paths (Scenario.flagged false) /\
    run_stages st' ⊆ run_stages (Scenario.flagged false).
Proof.
  assert (H : exists b st',
             _build_dep Scenario.demo Scenario.cfgAB 3 "y"
               (Scenario.flagged false) = Ret (b, st'))
    by (eexists; eexists; vm_compute; reflexivity).
  destruct H as (b & st' & H). exists b, st'. split; [exact H|].
  destruct (driver_keeps_the_plan Scenario.demo Scenario.cfgAB 3 "y"
              (Scenario.flagged false) b st' H) as (_ & Hd & _ & _ & Hr & _).
  split; [exact Hd|exact Hr].
Defined.

Lemma build_fails_only_when_unresolved_witness :
  _build_dep Scenario.demo Scenario.cfgD 1 "w" Scenario.startD
    = Ret (false, sfprint Scenario.demo 2 (Unresolved "w") Scenario.startD).
Proof.
  apply (build_fails_only_when_unresolved Scenario.demo Scenario.cfgD 0 "w"
           Scenario.startD).
  split; reflexivity.
Defined.

Lemma rebuilt_artifact_is_up_to_date_witness :
  exists st' : State Scenario.demo,
    run_provider Scenario.demo Scenario.cfgAB "y" (PStr "y.out") Scenario.B
      (Scenario.flagged false) = Ret (tt, st') /\
    _build_dep Scenario.demo Scenario.cfgAB 1 "y" st' = Ret (true, st').
Proof.
  assert (H : exists st',
             run_provider Scenario.demo Scenario.cfgAB "y" (PStr "y.out")
               Scenario.B (Scenario.flagged false) = Ret (tt, st'))
    by (eexists; vm_compute; reflexivity).
  destruct H as [st' H]. exists st'. split; [exact H|].
  apply (rebuilt_artifact_is_up_to_date Scenario.demo Scenario.cfgAB "y"
           Scenario.B (Scenario.flagged false) st' 0).
  - reflexivity.
  - reflexivity.
  - exists (StageIO.mk "y" req). split; [left|reflexivity].
  - exact H.
Defined.

Lemma execute_unresolved_target_raises_key_error_witness :
  execute Scenario.demo Scenario.cfgD "v" 1 Scenario.startD
    = Raise (KeyError "v").
Proof.
  apply (execute_unresolved_target_raises_key_error Scenario.demo Scenario.cfgD
           "v" 0 Scenario.startD).
  reflexivity.
Defined.

Lemma reporter_agrees_with_driver_witness :
  resolved_line Scenario.demo Scenario.startD "v"
    = Ret (MarkU, SrcStageUnknown "D") /\
  _build_dep Scenario.demo Scenario.cfgD 1 "v" Scenario.startD
    = Ret (false, sfprint Scenario.demo 2 (Unresolved "v") Scenario.startD).
Proof.
  split; [reflexivity|].
  destruct (reporter_agrees_with_driver Scenario.demo Scenario.cfgD 0 "v"
              Scenario.startD MarkU (SrcStageUnknown "D")) as (_ & H & _).
  - reflexivity.
  - apply H. reflexivity.
Defined.

(** * The constructor and the reporter as wholes *)

Section Wholes.

Context (E : Env).

(** X18: a constructor that returns has left the disk as it found it, has
    executed no module and created no cache; every entry of its output-stage
    map points to a stage of the configuration that declares the key; and the
    target has a rebuild counter. *)
Theorem construction_runs_nothing (cfg : FlowConfig) (target : string)
    (cache : option (Cache E)) (dk : Disk) (fuel : nat) (st : State E) :
  Flow_init E cfg target cache dk fuel = Ret st ->
  disk st = dk /\
  executed st = [] /\
  (cache = None -> f4cache st = None) /\
  (forall k s, os_map st !! k = Some s ->
     s ∈ stages cfg /\ k ∈ output_names s) /\
  is_Some (deps_rebuilds st !! target).
Proof.
  unfold Flow_init. intros H.
  destruct (build_os_map_raise (stages cfg) (stages cfg) ∅)
    as [(m & Hm & Hfrom)|(o' & t1 & t2 & Hr & _)];
    [done|apply entries_from_empty| |by rewrite Hr in H].
  rewrite Hm in H. cbn [rbind] in H.
  destruct (seed_items dk (dependency_overrides cfg)) as [items| |]; try done.
  cbn [rbind] in H.
  destruct (_resolve_dependencies E cfg fuel target _) as [[[] s1]| |] eqn:Hres;
    try done.
  cbn [rbind] in H. inversion H; subst; clear H.
  apply resolve_dependencies_step in Hres as [Hstep Hkey].
  destruct Hstep as (Hd & He & _ & _ & _ & Ho & _ & Hf & _). simpl in *.
  split_and!; try done.
  - intros ->. by apply Hf.
  - intros k s Hk. by apply Hfrom, Ho.
Qed.

Lemma str_le_total : Total str_le.
Proof. intros a b. apply String.leb_total. Qed.

Lemma resolved_lines_keys (st : State E) (deps : list string)
    (lines : list (string * (status_mark * dep_source))) :
  resolved_lines E st deps = Ret lines -> map fst lines = deps.
Proof.
  revert lines. induction deps as [|dep deps IH]; intros lines H; simpl in H.
  - by inversion H.
  - destruct (resolved_line E st dep) as [line| |]; try done. simpl in H.
    destruct (resolved_lines E st deps) as [rest| |]; try done. simpl in H.
    inversion H; subst. simpl. f_equal. by apply IH.
Qed.

Lemma resolved_line_raise (st : State E) (dep : string) (e : error) :
  is_Some (deps_rebuilds st !! dep) ->
  resolved_line E st dep = Raise e ->
  exists r, e = Exception (MsgRequirementType r).
Proof.
  intros [n Hn]. unfold resolved_line. rewrite Hn.
  destruct (truthy _).
  - destruct (p_req_exists (disk st) _) as [ex|e'|] eqn:Hex; simpl.
    + destruct (os_map st !! dep) as [p|];
        [destruct (bool_decide _)|]; by destruct ex.
    + intros [= <-]. by apply p_req_exists_raise in Hex.
    + done.
  - by destruct (os_map st !! dep).
Qed.

Lemma resolved_line_answers (st : State E) (dep : string) :
  resolved_line E st dep <> OutOfFuel.
Proof.
  unfold resolved_line. destruct (truthy _).
  - destruct (p_req_exists (disk st) _) as [ex|e'|] eqn:Hex; simpl; [|done|].
    + destruct (os_map st !! dep) as [p|];
        [destruct (bool_decide _)|]; destruct ex; try done;
        by destruct (deps_rebuilds st !! dep).
    + by apply p_req_exists_answers in Hex.
  - by destruct (os_map st !! dep).
Qed.

Lemma resolved_lines_raise (st : State E) (deps : list string) :
  (forall dep, dep ∈ deps -> is_Some (deps_rebuilds st !! dep)) ->
  (forall e, resolved_lines E st deps = Raise e ->
     exists r, e = Exception (MsgRequirementType r)) /\
  resolved_lines E st deps <> OutOfFuel.
Proof.
  induction deps as [|dep deps IH]; intros Hkeys; simpl; [done|].
  destruct IH as [IHr IHo]; [intros d Hd; apply Hkeys; by right|].
  destruct (resolved_line E st dep) as [line|e'|] eqn:Hl; simpl.
  - destruct (resolved_lines E st deps) as [rest|e'|]; simpl; [done| |done].
    split; [|done]. intros e [= <-]. by apply IHr.
  - split; [|done]. intros e [= <-].
    eapply resolved_line_raise; [|exact Hl]. apply Hkeys. left.
  - by apply resolved_line_answers in Hl.
Qed.

(** X19: the report has one line for each artifact with a rebuild counter,
    in sorted order of the names; it never raises [KeyError], the only
    exception it can end with being the one of the existence check. *)
Theorem report_has_one_sorted_line_per_counter (st : State E) :
  (forall lines, print_resolved_dependencies E st = Ret lines ->
     map fst lines ≡ₚ map fst (map_to_list (deps_rebuilds st)) /\
     NoDup (map fst lines) /\
     Sorted str_le (map fst lines)) /\
  (forall e, print_resolved_dependencies E st = Raise e ->
     exists r, e = Exception (MsgRequirementType r)) /\
  print_resolved_dependencies E st <> OutOfFuel.
Proof.
  unfold print_resolved_dependencies.
  pose proof (merge_sort_Permutation str_le
                (map fst (map_to_list (deps_rebuilds st)))) as Hperm.
  split_and!.
  - intros lines H. apply resolved_lines_keys in H. rewrite H. split_and!.
    + exact Hperm.
    + rewrite Hperm. apply NoDup_fst_map_to_list.
    + apply (@Sorted_merge_sort _ str_le _ str_le_total).
  - apply resolved_lines_raise. intros dep Hdep. rewrite Hperm in Hdep.
    apply list_elem_of_fmap in Hdep as ([k n] & -> & Hkn).
    apply elem_of_map_to_list in Hkn. simpl. eauto.
  - apply resolved_lines_raise. intros dep Hdep. rewrite Hperm in Hdep.
    apply list_elem_of_fmap in Hdep as ([k n] & -> & Hkn).
    apply elem_of_map_to_list in Hkn. simpl. eauto.
Qed.

End Wholes.

Lemma construction_runs_nothing_witness :
  exists st : State Scenario.demo,
    Flow_init Scenario.demo Scenario.cfgAB "y" None (Scenario.files ["src.v"]) 4
      = Ret st /\
    executed st = [] /\
    is_Some (deps_rebuilds st !! "y").
Proof.
  assert (H : exists st,
             Flow_init Scenario.demo Scenario.cfgAB "y" None
               (Scenario.files ["src.v"]) 4 = Ret st)
    by (eexists; vm_compute; reflexivity).
  destruct H as [st H]. exists st. split; [exact H|].
  destruct (construction_runs_nothing Scenario.demo Scenario.cfgAB "y" None
              (Scenario.files ["src.v"]) 4 st H) as (_ & He & _ & _ & Hk).
  split; [exact He|exact Hk].
Defined.

Lemma report_has_one_sorted_line_per_counter_witness :
  exists lines,
    print_resolved_dependencies Scenario.demo Scenario.counted = Ret lines /\
    map fst lines = ["src"; "x"; "y"] /\
    Sorted str_le (map fst lines).
Proof.
  assert (Hp : exists lines,
             print_resolved_dependencies Scenario.demo Scenario.counted
               = Ret lines /\ map fst lines = ["src"; "x"; "y"])
    by (eexists; split; vm_compute; reflexivity).
  destruct Hp as (lines & Hp & Hkeys). exists lines.
  split; [exact Hp|]. split; [exact Hkeys|].
  destruct (report_has_one_sorted_line_per_counter Scenario.demo
              Scenario.counted) as (H & _ & _).
  destruct (H lines Hp) as (_ & _ & Hs). exact Hs.
Defined.
